(** * versioneer.py: the version resolver

    A shallow embedding of the resolver of [versioneer.py] (Python 2):
    [run_command], [version_from_vcs], [version_from_expanded_variable],
    [version_from_file], [version_from_parentdir], [get_expanded_variable],
    [get_best_version] and [get_version], and of the functions that write
    the files the resolver reads, [write_to_version_file], [do_vcs_install]
    and the [run] of [cmd_update_files], together with the string and
    regular-expression primitives of the Python library they call.

    Python [str] values are [string]s of bytes.  A Python value that may be
    [None] is an [option].  Effects (file access, process creation, printing,
    exceptions) are threaded through the monad [M] over an explicit [World]. *)

From Stdlib Require Import Ascii String ZArith Lia.
From stdpp Require Import base option list sorting gmap strings.

Local Open Scope Z_scope.
Local Open Scope stdpp_scope.

(** ** Python string primitives *)

Module PyStr.

(** [s.startswith(p)] *)
Definition startswith (s p : string) : bool := String.prefix p s.

(** [s[n:]] *)
Fixpoint slice_from (n : nat) (s : string) : string :=
  match n, s with
  | O, _ => s
  | S _, EmptyString => EmptyString
  | S n', String _ s' => slice_from n' s'
  end.

(** [sub in s] *)
Fixpoint contains (sub s : string) : bool :=
  String.prefix sub s ||
  match s with
  | EmptyString => false
  | String _ s' => contains sub s'
  end.

(** The characters [str.strip()] removes: the C-locale [isspace] set. *)
Definition is_space (c : ascii) : bool := Ascii.is_space c.

Definition is_empty (s : string) : bool :=
  match s with EmptyString => true | String _ _ => false end.

Fixpoint lstrip_with (p : ascii → bool) (s : string) : string :=
  match s with
  | EmptyString => EmptyString
  | String c s' => if p c then lstrip_with p s' else s
  end.

Fixpoint rstrip_with (p : ascii → bool) (s : string) : string :=
  match s with
  | EmptyString => EmptyString
  | String c s' =>
      let r := rstrip_with p s' in
      if is_empty r && p c then EmptyString else String c r
  end.

Definition strip_with (p : ascii → bool) (s : string) : string :=
  rstrip_with p (lstrip_with p s).

(** [s.strip()] *)
Definition strip (s : string) : string := strip_with is_space s.

Fixpoint mem_char (c : ascii) (chars : string) : bool :=
  match chars with
  | EmptyString => false
  | String d chars' => Ascii.eqb c d || mem_char c chars'
  end.

(** [s.strip(chars)] *)
Definition strip_chars (chars s : string) : string :=
  strip_with (λ c, mem_char c chars) s.

(** [s.rstrip(chars)] *)
Definition rstrip_chars (chars s : string) : string :=
  rstrip_with (λ c, mem_char c chars) s.

(** [s.split(sep)] for a one-character separator: never the empty list. *)
Fixpoint split (sep : ascii) (s : string) : list string :=
  match s with
  | EmptyString => [EmptyString]
  | String c s' =>
      if Ascii.eqb c sep then EmptyString :: split sep s'
      else match split sep s' with
           | [] => [String c EmptyString]
           | h :: t => String c h :: t
           end
  end.

(** [f.readlines()] on the contents of a file opened in mode "r": the
    lines, each with its terminating newline when it has one. *)
Fixpoint readlines (content : string) : list string :=
  match content with
  | EmptyString => []
  | String c rest =>
      if Ascii.eqb c "010"%char then String c EmptyString :: readlines rest
      else match readlines rest with
           | [] => [String c EmptyString]
           | h :: t => String c h :: t
           end
  end.

(** [fmt % args] for the formats the module uses: the pieces in order. *)
Definition concat (pieces : list string) : string :=
  String.concat EmptyString pieces.

End PyStr.

(** ** The fragment of Python's [re] the module uses

    A pattern is a sequence of atoms with at most one capturing group.  The
    matcher is the backtracking one of [re]: quantifiers are greedy, and give
    characters back one at a time when the rest of the pattern fails. *)

Module Re.

Inductive atom : Type :=
| Chr (c : ascii)               (* a literal character *)
| Star (cls : ascii → bool)     (* [cls*] *)
| Plus (cls : ascii → bool)     (* [cls+] *)
| GroupOpen                     (* the opening parenthesis of group 1 *)
| GroupClose.                   (* its closing parenthesis *)

Definition regex : Type := list atom.

(** The atoms of a literal text. *)
Fixpoint lit (text : string) : regex :=
  match text with
  | EmptyString => []
  | String c text' => Chr c :: lit text'
  end.

(** [\s] without the UNICODE and LOCALE flags. *)
Definition space (c : ascii) : bool := Ascii.is_space c.

(** [.] without DOTALL: anything but a newline. *)
Definition dot (c : ascii) : bool := negb (Ascii.eqb c "010"%char).

(** [[^x]] *)
Definition not_char (x c : ascii) : bool := negb (Ascii.eqb c x).

(** A consumed character joins group 1 while the group is open. *)
Definition push (inside : bool) (grp : string) (c : ascii) : string :=
  if inside then grp +:+ String c EmptyString else grp.

(** Greedy repetition of a character class, then the continuation [k];
    the longest repetition is tried first. *)
Fixpoint greedy (cls : ascii → bool) (inside : bool)
    (k : string → string → option string) (grp s : string) : option string :=
  match s with
  | String c s' =>
      if cls c then
        match greedy cls inside k (push inside grp c) s' with
        | Some g => Some g
        | None => k grp s
        end
      else k grp s
  | EmptyString => k grp s
  end.

(** Match [r] at the start of [s]; the result is the text of group 1. *)
Fixpoint exec (r : regex) (inside : bool) (grp s : string) : option string :=
  match r with
  | [] => Some grp
  | Chr c :: r' =>
      match s with
      | String d s' =>
          if Ascii.eqb c d then exec r' inside (push inside grp d) s' else None
      | EmptyString => None
      end
  | Star cls :: r' => greedy cls inside (exec r' inside) grp s
  | Plus cls :: r' =>
      match s with
      | String d s' =>
          if cls d then greedy cls inside (exec r' inside) (push inside grp d) s'
          else None
      | EmptyString => None
      end
  | GroupOpen :: r' => exec r' true EmptyString s
  | GroupClose :: r' => exec r' false grp s
  end.

(** [re.match(r, s)], then [.group(1)] of the match object. *)
Definition match_ (r : regex) (s : string) : option string :=
  exec r false EmptyString s.

(** [re.search(r, s)], then [.group(1)]: the leftmost position that matches. *)
Fixpoint search (r : regex) (s : string) : option string :=
  match match_ r s with
  | Some g => Some g
  | None =>
      match s with
      | EmptyString => None
      | String _ s' => search r s'
      end
  end.

End Re.

(** ** The world the module runs in *)

(** What [subprocess.Popen(args, stdout=PIPE)] followed by [communicate()]
    gives: [Popen] raising [EnvironmentError], or the captured standard
    output and the return code. *)
Inductive popen_result : Type :=
| SpawnFails (msg : string)
| Exits (stdout : string) (returncode : Z).

Record World : Type := mkWorld {
  (** directories, by the path [os.path.isdir] is asked about *)
  w_dirs : gset string;
  (** the files [open] can read, with their contents; writing updates it *)
  w_files : gmap string string;
  (** the behaviour of external programs *)
  w_popen : list string → popen_result;
  (** [os.path.abspath(me)], where [me] is [__file__] or else [sys.argv[0]] *)
  w_me : string;
  (** the module-level settings [versionfile_source], [tag_prefix] and
      [parentdir_prefix]: [None] until the project's setup.py assigns them *)
  g_versionfile_source : option string;
  g_tag_prefix : option string;
  g_parentdir_prefix : option string
}.

(** What the module does to its surroundings, in order. *)
Inductive event : Type :=
| EIsDir (path : string)                 (* os.path.isdir(path) *)
| ESpawn (args : list string) (stdout_piped : bool)   (* subprocess.Popen *)
| EOpen (path mode : string)             (* open(path, mode) *)
| EWrite (path text : string)            (* f.write(text) *)
| EPrint (text : string).                (* print text *)

Inductive exn : Type :=
| EnvironmentError (msg : string)
| TypeError
| AssertionError (msg : string)
| NoVersionError (msg : string).

Inductive outcome (A : Type) : Type :=
| Ret (a : A)
| Raise (e : exn).
Arguments Ret {A} a.
Arguments Raise {A} e.

(** A computation: from a world to its outcome, the world it leaves and the
    events it caused. *)
Definition M (A : Type) : Type := World → outcome A * World * list event.

Definition ret {A} (a : A) : M A := λ w, (Ret a, w, []).

Definition raise {A} (e : exn) : M A := λ w, (Raise e, w, []).

Definition bind {A B} (m : M A) (k : A → M B) : M B := λ w,
  match m w with
  | (Ret a, w', t) => let '(r, w'', t') := k a w' in (r, w'', t ++ t')
  | (Raise e, w', t) => (Raise e, w', t)
  end.

Notation "'do' x <- m ; k" := (bind m (λ x, k))
  (at level 20, x name, m at level 100, k at level 200, only parsing).
Notation "m ;; k" := (bind m (λ _, k))
  (at level 100, k at level 200, only parsing, right associativity).

Definition is_EnvironmentError (e : exn) : bool :=
  match e with EnvironmentError _ => true | _ => false end.

(** [try: m  except EnvironmentError, e: h e] *)
Definition try_except {A} (m : M A) (h : exn → M A) : M A := λ w,
  match m w with
  | (Raise e, w', t) =>
      if is_EnvironmentError e then let '(r, w'', t') := h e w' in (r, w'', t ++ t')
      else (Raise e, w', t)
  | r => r
  end.

Definition emit (e : event) : M unit := λ w, (Ret tt, w, [e]).

Definition get_world : M World := λ w, (Ret w, w, []).

Definition put_world (w' : World) : M unit := λ _, (Ret tt, w', []).

(** [if c: m] *)
Definition when (c : bool) (m : M unit) : M unit := if c then m else ret tt.

(** The outcome, final world and trace of a run. *)
Definition result {A} (r : outcome A * World * list event) : outcome A := r.1.1.
Definition final {A} (r : outcome A * World * list event) : World := r.1.2.
Definition trace {A} (r : outcome A * World * list event) : list event := r.2.

(** ** The operating-system and library calls of the module *)

(** [print text] *)
Definition print (text : string) : M unit := emit (EPrint text).

(** [os.path.isdir(path)] *)
Definition isdir (path : string) : M bool :=
  do w <- get_world;
  emit (EIsDir path);;
  ret (bool_decide (path ∈ w_dirs w)).

(** A child process, as [communicate] and [returncode] see it. *)
Record process : Type := mkProcess { p_stdout : string; p_returncode : Z }.

(** [subprocess.Popen(list(args), stdout=subprocess.PIPE)].  Of a process
    the world knows what the module gets to see, its output and its exit
    status.  What [git] writes inside its repository (it may rewrite
    [.git/index]) is not recorded: [w_files] are the files as the module's
    own [open] finds them. *)
Definition Popen (args : list string) : M process :=
  do w <- get_world;
  emit (ESpawn args true);;
  match w_popen w args with
  | SpawnFails msg => raise (EnvironmentError msg)
  | Exits out rc => ret (mkProcess out rc)
  end.

(** [open(path, "r")], read to the end: the contents of the file. *)
Definition open_read (path : string) : M string :=
  do w <- get_world;
  emit (EOpen path "r");;
  match w_files w !! path with
  | Some content => ret content
  | None => raise (EnvironmentError "No such file or directory")
  end.

Module posixpath.

(** [p[:i], p[i:]] for [i = p.rfind('/') + 1] *)
Fixpoint split_last_slash (p : string) : string * string :=
  match p with
  | EmptyString => (EmptyString, EmptyString)
  | String c p' =>
      let '(head, tail) := split_last_slash p' in
      if PyStr.is_empty head then
        if Ascii.eqb c "/"%char then (String c EmptyString, tail)
        else (EmptyString, String c tail)
      else (String c head, tail)
  end.

(** [head == '/'*len(head)] *)
Fixpoint all_slashes (head : string) : bool :=
  match head with
  | EmptyString => true
  | String c head' => Ascii.eqb c "/"%char && all_slashes head'
  end.

Definition dirname (p : string) : string :=
  let head := (split_last_slash p).1 in
  if negb (PyStr.is_empty head) && negb (all_slashes head)
  then PyStr.rstrip_chars "/" head
  else head.

Definition basename (p : string) : string := (split_last_slash p).2.

End posixpath.

(** Why [open(path, mode)] cannot open [path] in a mode that writes, if it
    cannot: [path] names no file (it is empty, or ends in a slash, [.] or
    [..]), it is a directory, or the directory it lies in is not there.  A
    path without directory part lies in the working directory. *)
Definition open_for_writing_error (w : World) (path : string) : option string :=
  let parent := posixpath.dirname path in
  let name := posixpath.basename path in
  if PyStr.is_empty path then Some "No such file or directory"
  else if negb (PyStr.is_empty parent) && negb (bool_decide (parent ∈ w_dirs w))
  then Some "No such file or directory"
  else if bool_decide (name ∈ [EmptyString; "."; ".."]) || bool_decide (path ∈ w_dirs w)
  then Some "Is a directory"
  else None.

(** [f = open(path, "w"); f.write(text); f.close()] *)
Definition open_write (path text : string) : M unit :=
  do w <- get_world;
  emit (EOpen path "w");;
  match open_for_writing_error w path with
  | Some msg => raise (EnvironmentError msg)
  | None =>
      emit (EWrite path text);;
      put_world (mkWorld (w_dirs w) (<[path := text]> (w_files w)) (w_popen w)
                   (w_me w) (g_versionfile_source w) (g_tag_prefix w)
                   (g_parentdir_prefix w))
  end.

(** ** versioneer.py *)

Definition nl : string := String "010"%char EmptyString.

(** [SHORT_VERSION_PY % ver] *)
Definition SHORT_VERSION_PY (ver : string) : string :=
  PyStr.concat
    [nl;
     "# This file was generated by 'versioneer.py' from revision-control system"; nl;
     "# data, or from the parent directory name of an unpacked source archive."; nl;
     "# Distribution tarballs contain a pre-generated copy of this file."; nl;
     nl;
     "__version__ = '"; ver; "'"; nl].

Definition run_command (args : list string) (verbose : bool) : M (option string) :=
  do started <-
    try_except
      (do p <- Popen args; ret (Some p))
      (λ e,
         when verbose
           (print (PyStr.concat ["unable to run "; default EmptyString (head args)]);;
            print (match e with EnvironmentError msg => msg | _ => EmptyString end));;
         ret None);
  match started with
  | None => ret None
  | Some p =>
      let stdout := PyStr.strip (p_stdout p) in
      if negb (p_returncode p =? 0) then
        when verbose
          (print (PyStr.concat ["unable to run "; default EmptyString (head args);
                                " (error)"]));;
        ret None
      else ret (Some stdout)
  end.

Definition version_from_vcs (tag_prefix : string) (verbose : bool)
    : M (option string) :=
  do is_repo <- isdir ".git";
  if negb is_repo then
    when verbose (print "This does not appear to be a Git repository.");;
    ret None
  else
    do stdout <- run_command ["git"; "describe"; "--tags"; "--dirty"; "--always"] false;
    match stdout with
    | None => ret None
    | Some stdout =>
        if negb (PyStr.startswith stdout tag_prefix) then
          when verbose
            (print (PyStr.concat ["tag '"; stdout; "' doesn't start with prefix '";
                                  tag_prefix; "'"]));;
          ret None
        else ret (Some (PyStr.slice_from (String.length tag_prefix) stdout))
    end.

(** The loop [for r in reversed(sorted(refs)): ...] and the [return] after it. *)
Fixpoint first_with_prefix (rs : list string) (tag_prefix : string) : string :=
  match rs with
  | [] => "unknown"
  | r :: rs' =>
      if PyStr.startswith r tag_prefix
      then PyStr.slice_from (String.length tag_prefix) r
      else first_with_prefix rs' tag_prefix
  end.

(** [[r.strip() for r in s.strip("()").split(",")]] *)
Definition ref_list (s : string) : list string :=
  PyStr.strip <$> PyStr.split ","%char (PyStr.strip_chars "()" s).

(** [set(...)] of that list *)
Definition parse_refs (s : string) : gset string := list_to_set (ref_list s).

(** [refs.discard("HEAD") ; refs.discard("master")], then the loop over
    [reversed(sorted(refs))]. *)
Definition select_ref (refs : gset string) (tag_prefix : string) : string :=
  let refs := refs ∖ {["HEAD"]} in
  let refs := refs ∖ {["master"]} in
  first_with_prefix (reverse (merge_sort String.le (elements refs))) tag_prefix.

Definition version_from_expanded_variable (s tag_prefix : string)
    : M (option string) :=
  let s := PyStr.strip s in
  if PyStr.contains "$Format" s then version_from_vcs tag_prefix false
  else ret (Some (select_ref (parse_refs s) tag_prefix)).

(** The pattern [__version__ = '([^']+)'] *)
Definition version_line_re : Re.regex :=
  Re.lit "__version__ = '" ++
  [Re.GroupOpen; Re.Plus (Re.not_char "'"%char); Re.GroupClose; Re.Chr "'"%char].

(** The loop of [version_from_file] over the lines, and the [return None]
    after it. *)
Fixpoint first_version_line (lines : list string) : option string :=
  match lines with
  | [] => None
  | line :: rest =>
      match Re.match_ version_line_re line with
      | Some ver => Some ver
      | None => first_version_line rest
      end
  end.

Definition version_from_file (filename : string) : M (option string) :=
  do f <- try_except (do f <- open_read filename; ret (Some f)) (λ _, ret None);
  match f with
  | None => ret None
  | Some content => ret (first_version_line (PyStr.readlines content))
  end.

Definition version_from_parentdir (tag_prefix parentdir_prefix : string)
    (verbose : bool) : M (option string) :=
  do w <- get_world;
  let me := w_me w in
  let dirname := posixpath.basename (posixpath.dirname me) in
  if negb (PyStr.startswith dirname parentdir_prefix) then
    when verbose
      (print (PyStr.concat ["dirname '"; dirname; "' doesn't start with prefix '";
                            parentdir_prefix; "'"]));;
    ret None
  else ret (Some (PyStr.slice_from (String.length parentdir_prefix) dirname)).

Definition write_to_version_file (filename ver : string) : M unit :=
  open_write filename (SHORT_VERSION_PY ver);;
  print (PyStr.concat ["set "; filename; " to '"; ver; "'"]).

(** The double quote character. *)
Definition dquote : ascii := "034"%char.

(** The pattern of [re.search] in [get_expanded_variable]: an equals sign,
    [\s*], a double quote, the group [. *] (any run of characters other than
    a newline), a double quote. *)
Definition verstr_re : Re.regex :=
  [Re.Chr "="%char; Re.Star Re.space; Re.Chr dquote;
   Re.GroupOpen; Re.Star Re.dot; Re.GroupClose; Re.Chr dquote].

(** The loop of [get_expanded_variable] over the lines. *)
Fixpoint first_verstr_line (lines : list string) : option string :=
  match lines with
  | [] => None
  | line :: rest =>
      if PyStr.startswith (PyStr.strip line) "verstr =" then
        match Re.search verstr_re line with
        | Some value => Some value
        | None => first_verstr_line rest
        end
      else first_verstr_line rest
  end.

(** The argument is the module-level setting, [None] while it is unset;
    [open(None, "r")] raises [TypeError], which the [except] clause does not
    catch. *)
Definition get_expanded_variable (versionfile_source : option string)
    : M (option string) :=
  try_except
    (do content <-
       match versionfile_source with
       | Some path => open_read path
       | None => raise TypeError
       end;
     ret (first_verstr_line (PyStr.readlines content)))
    (λ _, ret None).

(** The truth value of a string or [None] in [if verstr:]. *)
Definition truthy (v : option string) : bool :=
  match v with
  | Some s => negb (PyStr.is_empty s)
  | None => false
  end.

(** The tail of [get_best_version], from the plain version file on. *)
Definition get_best_version_from_file (versionfile tag_prefix parentdir_prefix : string)
    (default : option string) (verbose : bool) : M string :=
  do ver <- version_from_file versionfile;
  match ver with
  | Some ver =>
      when verbose (print (PyStr.concat ["got version from file "; versionfile]));;
      ret ver
  | None =>
      do ver <- version_from_parentdir tag_prefix parentdir_prefix verbose;
      match ver with
      | Some ver =>
          when verbose (print "got version from parentdir");;
          ret ver
      | None =>
          match default with
          | Some ver =>
              when verbose (print "got version from default");;
              ret ver
          | None => raise (NoVersionError "Unable to compute version at all")
          end
      end
  end.

(** [versionfile_source] in the body is the module-level setting, not the
    parameter [versionfile]. *)
Definition get_best_version (versionfile tag_prefix parentdir_prefix : string)
    (default : option string) (verbose : bool) : M string :=
  do ver <- version_from_vcs tag_prefix verbose;
  match ver with
  | Some ver =>
      when verbose (print "got version from git");;
      ret ver
  | None =>
      do w <- get_world;
      do verstr <- get_expanded_variable (g_versionfile_source w);
      do ver <-
        match verstr with
        | Some s =>
            if truthy verstr then version_from_expanded_variable s tag_prefix
            else ret None
        | None => ret None
        end;
      match ver with
      | Some ver =>
          when verbose (print "got version from expanded variable");;
          ret ver
      | None =>
          get_best_version_from_file versionfile tag_prefix parentdir_prefix
            default verbose
      end
  end.

Definition get_version (verbose : bool) : M string :=
  do w <- get_world;
  match g_versionfile_source w, g_tag_prefix w, g_parentdir_prefix w with
  | None, _, _ => raise (AssertionError "please set versioneer.versionfile_source")
  | Some _, None, _ => raise (AssertionError "please set versioneer.tag_prefix")
  | Some _, Some _, None =>
      raise (AssertionError "please set versioneer.parentdir_prefix")
  | Some versionfile_source, Some tag_prefix, Some parentdir_prefix =>
      get_best_version versionfile_source tag_prefix parentdir_prefix None verbose
  end.

(** *** The installation into the repository *)

(** [f = open(path, mode)], [f.write(text)], [f.close()] for an append mode,
    "a" or "a+": the text goes after what the file holds, and a missing file
    is created. *)
Definition open_append (path mode text : string) : M unit :=
  do w <- get_world;
  emit (EOpen path mode);;
  match open_for_writing_error w path with
  | Some msg => raise (EnvironmentError msg)
  | None =>
      emit (EWrite path text);;
      put_world
        (mkWorld (w_dirs w)
           (<[path := default EmptyString (w_files w !! path) +:+ text]> (w_files w))
           (w_popen w) (w_me w) (g_versionfile_source w) (g_tag_prefix w)
           (g_parentdir_prefix w))
  end.

(** [s.split()] reads [s] word by word; [cur] is the word being read. *)
Fixpoint split_whitespace_go (cur s : string) : list string :=
  match s with
  | EmptyString => if PyStr.is_empty cur then [] else [cur]
  | String c s' =>
      if PyStr.is_space c
      then (if PyStr.is_empty cur then [] else [cur]) ++
           split_whitespace_go EmptyString s'
      else split_whitespace_go (cur +:+ String c EmptyString) s'
  end.

(** [s.split()]: the runs of characters of [s] that are no whitespace. *)
Definition split_whitespace (s : string) : list string :=
  split_whitespace_go EmptyString s.

(** The loop of [do_vcs_install] over the lines of [.gitattributes];
    [present] is the variable of that name. *)
Fixpoint export_subst_present (versionfile_source : string) (lines : list string)
    (present : bool) : bool :=
  match lines with
  | [] => present
  | line :: rest =>
      export_subst_present versionfile_source rest
        (if PyStr.startswith (PyStr.strip line) versionfile_source then
           if bool_decide
                ("export-subst" ∈ tail (split_whitespace (PyStr.strip line)))
           then true
           else present
         else present)
  end.

Definition do_vcs_install (versionfile_source ipy : string) : M unit :=
  run_command ["git"; "add"; "versioneer.py"] false;;
  run_command ["git"; "add"; versionfile_source] false;;
  run_command ["git"; "add"; ipy] false;;
  do present <-
    try_except
      (do content <- open_read ".gitattributes";
       ret (export_subst_present versionfile_source (PyStr.readlines content) false))
      (λ _, ret false);
  if negb present then
    open_append ".gitattributes" "a+"
      (PyStr.concat [versionfile_source; " export-subst"; nl]);;
    run_command ["git"; "add"; ".gitattributes"] false;;
    ret tt
  else ret tt.

(** ** Notions the statements use *)

(** The computation leaves the world as it found it. *)
Definition keeps {A} (m : M A) : Prop := ∀ w, final (m w) = w.

(** Every event the computation causes satisfies [P]. *)
Definition only {A} (P : event → Prop) (m : M A) : Prop :=
  ∀ w, Forall P (trace (m w)).

(** [open] can open [path] for writing or appending in the world [w]. *)
Definition writable (w : World) (path : string) : Prop :=
  open_for_writing_error w path = None.

(** An event that changes no file: no write, and no [open] in another mode
    than "r". *)
Definition read_only (e : event) : Prop :=
  match e with
  | EWrite _ _ => False
  | EOpen _ mode => mode = "r"
  | _ => True
  end.

Definition is_spawn (e : event) : bool :=
  match e with ESpawn _ _ => true | _ => false end.

Definition is_print (e : event) : bool :=
  match e with EPrint _ => true | _ => false end.

(** The processes a trace starts. *)
Definition spawns (t : list event) : list event := filter (λ e, is_spawn e) t.

(** A trace without its diagnostic output. *)
Definition quiet (t : list event) : list event := filter (λ e, ¬ is_print e) t.

Definition describe_args : list string :=
  ["git"; "describe"; "--tags"; "--dirty"; "--always"].

(** The value of [run_command args]: the trimmed output of a process that
    started and exited with status 0. *)
Definition command_output (w : World) (args : list string) : option string :=
  match w_popen w args with
  | SpawnFails _ => None
  | Exits out rc => if rc =? 0 then Some (PyStr.strip out) else None
  end.

(** The value of [version_from_vcs tag_prefix]. *)
Definition describe_version (w : World) (tag_prefix : string) : option string :=
  if bool_decide (".git" ∈ w_dirs w) then
    match command_output w describe_args with
    | Some out =>
        if PyStr.startswith out tag_prefix
        then Some (PyStr.slice_from (String.length tag_prefix) out)
        else None
    | None => None
    end
  else None.

(** Method 2 as [get_best_version] runs it (the statements between method 1
    and method 3): the variable is looked for in the file the module-level
    setting names, and [if verstr:] passes over a variable that is absent or
    empty. *)
Definition expanded_variable_scan (tag_prefix : string) : M (option string) :=
  do w <- get_world;
  do verstr <- get_expanded_variable (g_versionfile_source w);
  match verstr with
  | Some s =>
      if truthy verstr then version_from_expanded_variable s tag_prefix
      else ret None
  | None => ret None
  end.

(** The outcome of each of the five methods in the world [w], in the order
    [get_best_version] tries them; the caller's default is the fifth. *)
Definition candidates (w : World) (versionfile tag_prefix parentdir_prefix : string)
    (default : option string) (verbose : bool) : list (outcome (option string)) :=
  [ result (version_from_vcs tag_prefix verbose w);
    result (expanded_variable_scan tag_prefix w);
    result (version_from_file versionfile w);
    result (version_from_parentdir tag_prefix parentdir_prefix verbose w);
    Ret default ].

(** A method is inapplicable when it returns [None], applicable when it
    returns a string.  The first applicable method decides; when there is
    none the error is [NoVersionError]; an exception of a method on the way
    propagates. *)
Fixpoint first_applicable (cs : list (outcome (option string))) : outcome string :=
  match cs with
  | [] => Raise (NoVersionError "Unable to compute version at all")
  | Ret (Some ver) :: _ => Ret ver
  | Ret None :: cs' => first_applicable cs'
  | Raise e :: _ => Raise e
  end.

Definition inapplicable (c : outcome (option string)) : Prop := c = Ret None.

(** The first of the results of the methods that is one; [None] when every
    method is inapplicable. *)
Fixpoint first_result (results : list (option string)) : option string :=
  match results with
  | [] => None
  | Some ver :: _ => Some ver
  | None :: results' => first_result results'
  end.

(** A resolution over the results of methods that all returned: the first
    result there is, and the error of the resolver when there is none. *)
Definition resolution (results : list (option string)) : outcome string :=
  match first_result results with
  | Some ver => Ret ver
  | None => Raise (NoVersionError "Unable to compute version at all")
  end.

(** The value of [version_from_expanded_variable s tag_prefix]. *)
Definition expanded_version (w : World) (s tag_prefix : string) : option string :=
  if PyStr.contains "$Format" (PyStr.strip s) then describe_version w tag_prefix
  else Some (select_ref (parse_refs (PyStr.strip s)) tag_prefix).

(** The variable [get_best_version] finds in the file [path]. *)
Definition expanded_variable (w : World) (path : string) : option string :=
  content ← w_files w !! path; first_verstr_line (PyStr.readlines content).

(** What is left of [refs] after the two [discard]s. *)
Definition kept (refs : gset string) : gset string :=
  refs ∖ {["HEAD"]} ∖ {["master"]}.

(** The list the loop of [version_from_expanded_variable] runs over, for an
    iteration order [l] of the set. *)
Definition descending (l : list string) : list string :=
  reverse (merge_sort String.le l).


(** The external tool could not be run, or ran and failed. *)
Definition tool_fails (w : World) (args : list string) : Prop :=
  match w_popen w args with
  | SpawnFails _ => True
  | Exits _ rc => rc ≠ 0
  end.

(** *** Example worlds *)

(** No [git] on the machine. *)
Definition no_git : list string → popen_result :=
  λ _, SpawnFails "No such file or directory".

(** A line [verstr = ...] of the version file, with [value] between the
    double quotes. *)
Definition verstr_line (value : string) : string :=
  "verstr = " +:+ String dquote value +:+ String dquote nl.

(** An unpacked archive [proj-1.0] without repository, whose version file
    [src/_version.py] holds the variable [value]. *)
Definition archive_world (value : string) : World :=
  mkWorld ∅ {["src/_version.py" := verstr_line value]} no_git
    "/home/user/proj-1.0/versioneer.py" (Some "src/_version.py") (Some "v")
    (Some "proj-").

(** A working directory with two version files; [setting] is the value of
    the module-level [versionfile_source]. *)
Definition two_files_world (setting : option string) : World :=
  mkWorld ∅
    {["a/_version.py" := verstr_line "(v1.0)";
      "b/_version.py" := verstr_line "(v2.0)"]}
    no_git "/home/user/work/versioneer.py" setting (Some "v") (Some "proj-").

(** A checkout of the project at a tag, with a local change. *)
Definition checkout_world : World :=
  mkWorld {[".git"]} {["src/_version.py" := verstr_line "$Format:%d$"]}
    (λ args, if bool_decide (args = describe_args)
             then Exits ("v1.2.0-dirty" +:+ nl) 0
             else SpawnFails "No such file or directory")
    "/home/user/work/versioneer.py" (Some "src/_version.py") (Some "v")
    (Some "proj-").

(** A directory [work] with nothing to go by. *)
Definition bare_world : World :=
  mkWorld ∅ ∅ no_git "/home/user/work/versioneer.py" (Some "src/_version.py")
    (Some "v") (Some "proj-").

(** An unpacked source distribution [proj-3.4.5] without repository, whose
    version file is the plain one with the version 0.9.1; [setting] is the
    value of the module-level [versionfile_source]. *)
Definition sdist_world (setting : option string) : World :=
  mkWorld {["src"]} {["src/_version.py" := SHORT_VERSION_PY "0.9.1"]} no_git
    "/home/user/proj-3.4.5/versioneer.py" setting (Some "v") (Some "proj-").

(** An unpacked archive as [archive_world], with its directory [src]. *)
Definition unpacked_world (value : string) : World :=
  mkWorld {["src"]} {["src/_version.py" := verstr_line value]} no_git
    "/home/user/proj-1.0/versioneer.py" (Some "src/_version.py") (Some "v")
    (Some "proj-").

(** The tree of a project whose package [src/pkg] has an [__init__.py], set
    up for a version file next to it, before anything is generated. *)
Definition package_world : World :=
  mkWorld {["src"; "src/pkg"]}
    {["src/pkg/__init__.py" := "import os" +:+ String "010"%char EmptyString]}
    no_git "/home/user/work/versioneer.py" (Some "src/pkg/_version.py")
    (Some "v") (Some "proj-").

(** [loud] does what [silent] does and, on top of it, prints. *)
Definition adds_prints {A} (loud silent : M A) : Prop :=
  ∀ w, result (loud w) = result (silent w)
       ∧ final (loud w) = final (silent w)
       ∧ quiet (trace (loud w)) = trace (silent w).

(** *** Texts and their lines *)

(** The newline character. *)
Definition newline : ascii := "010"%char.

(** [c not in s] *)
Definition free_of (c : ascii) (s : string) : Prop := PyStr.mem_char c s = false.

(** The text whose lines are [ls], each ended by a newline. *)
Definition unlines (ls : list string) : string :=
  foldr (λ l text, l +:+ nl +:+ text) EmptyString ls.



(** The entry [do_vcs_install] looks for in [.gitattributes], and writes. *)
Definition export_subst_entry (versionfile_source : string) : string :=
  versionfile_source +:+ " export-subst".

(** Whether [do_vcs_install] finds the entry in the world [w]. *)
Definition entry_present (w : World) (versionfile_source : string) : bool :=
  match w_files w !! ".gitattributes" with
  | Some content =>
      export_subst_present versionfile_source (PyStr.readlines content) false
  | None => false
  end.

Definition is_write (e : event) : bool :=
  match e with EWrite _ _ => true | _ => false end.

(** The world [w] with other files. *)
Definition with_files (w : World) (files : gmap string string) : World :=
  mkWorld (w_dirs w) files (w_popen w) (w_me w) (g_versionfile_source w)
    (g_tag_prefix w) (g_parentdir_prefix w).

(** What [.gitattributes] holds; nothing when there is no such file. *)
Definition gitattributes (w : World) : string :=
  default EmptyString (w_files w !! ".gitattributes").

(** *** The update of the project's files *)

(** The lines of the template [LONG_VERSION_PY] above its line [tag_prefix],
    with [%(DOLLAR)s] and [%%] filled in. *)
Definition LONG_VERSION_PY_head : list string :=
  [ EmptyString;
    "# This file helps to compute a version number in source trees obtained from";
    "# git-archive tarball (such as those provided by githubs download-from-tag";
    "# feature). Distribution tarballs (build by setup.py sdist) and build";
    "# directories (produced by setup.py build) will contain a much shorter file";
    "# that just contains the computed version number.";
    EmptyString;
    "# this string will be replaced by git during git-archive";
    "verstr = " +:+ String dquote "$Format:%d$" +:+ String dquote EmptyString;
    EmptyString;
    EmptyString;
    "import subprocess";
    EmptyString;
    "def run_command(args, verbose=False):";
    "    try:";
    "        p = subprocess.Popen(list(args), stdout=subprocess.PIPE)";
    "    except EnvironmentError, e:";
    "        if verbose:";
    "            print " +:+ String dquote "unable to run %s" +:+ String dquote " % args[0]";
    "            print e";
    "        return None";
    "    stdout = p.communicate()[0].strip()";
    "    if p.returncode != 0:";
    "        if verbose:";
    "            print " +:+ String dquote "unable to run %s (error)" +:+ String dquote " % args[0]";
    "        return None";
    "    return stdout";
    EmptyString;
    "import os.path";
    EmptyString;
    "def version_from_vcs(tag_prefix, verbose=False):";
    "    if not os.path.isdir(" +:+ String dquote ".git" +:+ String dquote "):";
    "        if verbose:";
    "            print " +:+ String dquote "This does not appear to be a Git repository." +:+ String dquote EmptyString;
    "        return None";
    "    stdout = run_command([" +:+ String dquote "git" +:+ String dquote ", " +:+ String dquote "describe" +:+ String dquote ",";
    "                          " +:+ String dquote "--tags" +:+ String dquote ", " +:+ String dquote "--dirty" +:+ String dquote ", " +:+ String dquote "--always" +:+ String dquote "])";
    "    if stdout is None:";
    "        return None";
    "    if not stdout.startswith(tag_prefix):";
    "        if verbose:";
    "            print " +:+ String dquote "tag '%s' doesn't start with prefix '%s'" +:+ String dquote " %                   (stdout, tag_prefix)";
    "        return None";
    "    return stdout[len(tag_prefix):]";
    EmptyString;
    "def version_from_expanded_variable(s, tag_prefix):";
    "    s = s.strip()";
    "    if " +:+ String dquote "$Format" +:+ String dquote " in s: # unexpanded";
    "        return version_from_vcs(tag_prefix)";
    "    refs = set([r.strip() for r in s.strip(" +:+ String dquote "()" +:+ String dquote ").split(" +:+ String dquote "," +:+ String dquote ")])";
    "    refs.discard(" +:+ String dquote "HEAD" +:+ String dquote ") ; refs.discard(" +:+ String dquote "master" +:+ String dquote ")";
    "    for r in reversed(sorted(refs)):";
    "        if r.startswith(tag_prefix):";
    "            return r[len(tag_prefix):]";
    "    return " +:+ String dquote "unknown" +:+ String dquote EmptyString;
    EmptyString ].

(** [LONG_VERSION_PY % {"DOLLAR": "$", "TAG_PREFIX": tag_prefix}]: the text of
    the version file [update_files] writes. *)
Definition LONG_VERSION_PY (tag_prefix : string) : string :=
  unlines LONG_VERSION_PY_head
  +:+ "tag_prefix = " +:+ String dquote tag_prefix +:+ String dquote nl
  +:+ unlines
    [ "__version__ = version_from_expanded_variable(verstr.strip(), tag_prefix)" ].

Definition INIT_PY_SNIPPET : string :=
  unlines
    [ EmptyString;
      "from ._version import __version__";
      "__version__ # hush pyflakes";
      EmptyString ].

(** [os.path.join(a, b)] *)
Definition path_join (a b : string) : string :=
  if PyStr.startswith b "/" then b
  else if PyStr.is_empty a || PyStr.startswith (String.rev a) "/" then a +:+ b
  else a +:+ "/" +:+ b.

(** [str(v)] of a string or [None], as [%s] formats it. *)
Definition str (v : option string) : string := default "None" v.

(** [cmd_update_files.run].  The parameters are the two module-level
    settings the method reads: [versionfile_source], where it holds a string
    (on [None] the first statement raises), and [tag_prefix]. *)
Definition cmd_update_files_run (versionfile_source : string)
    (tag_prefix : option string) : M unit :=
  let ipy := path_join (posixpath.dirname versionfile_source) "__init__.py" in
  print (PyStr.concat [" creating "; versionfile_source]);;
  open_write versionfile_source (LONG_VERSION_PY (str tag_prefix));;
  do old <- try_except (open_read ipy) (λ _, ret EmptyString);
  (if negb (PyStr.contains INIT_PY_SNIPPET old) then
     print (PyStr.concat [" appending to "; ipy]);;
     open_append ipy "a" INIT_PY_SNIPPET
   else print (PyStr.concat [" "; ipy; " unmodified"]));;
  do_vcs_install versionfile_source ipy.

(** The path of the [__init__.py] next to the version file. *)
Definition init_py (versionfile_source : string) : string :=
  path_join (posixpath.dirname versionfile_source) "__init__.py".

(** What the file [path] holds; nothing when there is no such file. *)
Definition content_of (w : World) (path : string) : string :=
  default EmptyString (w_files w !! path).

(** The world after [text] was appended to the file [path]. *)
Definition appended (w : World) (path text : string) : World :=
  with_files w (<[path := content_of w path +:+ text]> (w_files w)).

(** The world after [update_files] wrote the version file. *)
Definition version_file_written (w : World) (versionfile_source : string)
    (tag_prefix : option string) : World :=
  with_files w
    (<[versionfile_source := LONG_VERSION_PY (str tag_prefix)]> (w_files w)).

(** The world after [update_files] saw to the import in [__init__.py]. *)
Definition import_added (w : World) (ipy : string) : World :=
  if PyStr.contains INIT_PY_SNIPPET (content_of w ipy) then w
  else appended w ipy INIT_PY_SNIPPET.

(** The world after [do_vcs_install] saw to the entry in [.gitattributes]. *)
Definition entry_added (w : World) (versionfile_source : string) : World :=
  if entry_present w versionfile_source then w
  else appended w ".gitattributes" (export_subst_entry versionfile_source +:+ nl).

(** ** Facts about the string primitives *)

Section string_facts.

Lemma app_cons (c : ascii) (p rest : string) :
  String c p +:+ rest = String c (p +:+ rest).
Proof. reflexivity. Qed.

Lemma app_nil (rest : string) : EmptyString +:+ rest = rest.
Proof. reflexivity. Qed.

Lemma startswith_app (p rest : string) : PyStr.startswith (p +:+ rest) p = true.
Proof.
  unfold PyStr.startswith. induction p as [|c p IH].
  - rewrite app_nil. by destruct rest.
  - rewrite app_cons. simpl.
    destruct (ascii_dec c c) as [_|Hne]; [exact IH | by destruct Hne].
Qed.

Lemma startswith_inv (s p : string) :
  PyStr.startswith s p = true →
  s = p +:+ PyStr.slice_from (String.length p) s.
Proof.
  unfold PyStr.startswith. revert s. induction p as [|c p IH]; intros s H.
  - by destruct s.
  - destruct s as [|d s]; simpl in H; [done|].
    destruct (ascii_dec c d) as [->|_]; [|done].
    rewrite app_cons. simpl. f_equal. by apply IH.
Qed.

Lemma slice_from_app (p rest : string) :
  PyStr.slice_from (String.length p) (p +:+ rest) = rest.
Proof.
  induction p as [|c p IH]; [by destruct rest|].
  rewrite app_cons. exact IH.
Qed.

Lemma app_empty_r (s : string) : s +:+ EmptyString = s.
Proof.
  induction s as [|c s IH]; [done|]. by rewrite app_cons, IH.
Qed.

Lemma app_assoc_str (a b c : string) : (a +:+ b) +:+ c = a +:+ (b +:+ c).
Proof.
  induction a as [|x a IH]; [done|]. by rewrite !app_cons, IH.
Qed.

Lemma free_of_cons c d s : free_of c (String d s) ↔ c ≠ d ∧ free_of c s.
Proof.
  unfold free_of. simpl. destruct (Ascii.eqb_spec c d) as [->|Hne]; simpl.
  - split; [done | by intros [? _]].
  - tauto.
Qed.

Lemma free_of_app c a b : free_of c (a +:+ b) ↔ free_of c a ∧ free_of c b.
Proof.
  induction a as [|d a IH].
  - rewrite app_nil. unfold free_of at 2. simpl. tauto.
  - rewrite app_cons, !free_of_cons, IH. tauto.
Qed.

End string_facts.

(** ** Facts about the monad *)

Section monad_facts.
Context {A B : Type}.
Implicit Types (m : M A) (k : A → M B) (w : World).

Lemma result_bind m k w :
  result (bind m k w) =
  match result (m w) with
  | Ret a => result (k a (final (m w)))
  | Raise e => Raise e
  end.
Proof.
  unfold bind, result, final. destruct (m w) as [[[a|e] w'] t]; simpl; [|done].
  by destruct (k a w') as [[r w''] t'].
Qed.

Lemma final_bind m k w :
  final (bind m k w) =
  match result (m w) with
  | Ret a => final (k a (final (m w)))
  | Raise _ => final (m w)
  end.
Proof.
  unfold bind, result, final. destruct (m w) as [[[a|e] w'] t]; simpl; [|done].
  by destruct (k a w') as [[r w''] t'].
Qed.

Lemma trace_bind m k w :
  trace (bind m k w) =
  trace (m w) ++
  match result (m w) with
  | Ret a => trace (k a (final (m w)))
  | Raise _ => []
  end.
Proof.
  unfold bind, result, final, trace.
  destruct (m w) as [[[a|e] w'] t]; simpl; [|by rewrite app_nil_r].
  by destruct (k a w') as [[r w''] t'].
Qed.

Lemma result_try m (h : exn → M A) w :
  result (try_except m h w) =
  match result (m w) with
  | Raise e =>
      if is_EnvironmentError e then result (h e (final (m w))) else Raise e
  | Ret a => Ret a
  end.
Proof.
  unfold try_except, result, final. destruct (m w) as [[[a|e] w'] t]; simpl; [done|].
  destruct (is_EnvironmentError e); [|done]. by destruct (h e w') as [[r w''] t'].
Qed.

Lemma final_try m (h : exn → M A) w :
  final (try_except m h w) =
  match result (m w) with
  | Raise e =>
      if is_EnvironmentError e then final (h e (final (m w))) else final (m w)
  | Ret _ => final (m w)
  end.
Proof.
  unfold try_except, result, final. destruct (m w) as [[[a|e] w'] t]; simpl; [done|].
  destruct (is_EnvironmentError e); [|done]. by destruct (h e w') as [[r w''] t'].
Qed.

Lemma trace_try m (h : exn → M A) w :
  trace (try_except m h w) =
  trace (m w) ++
  match result (m w) with
  | Raise e => if is_EnvironmentError e then trace (h e (final (m w))) else []
  | Ret _ => []
  end.
Proof.
  unfold try_except, result, final, trace.
  destruct (m w) as [[[a|e] w'] t]; simpl; [by rewrite app_nil_r|].
  destruct (is_EnvironmentError e); [|by rewrite app_nil_r].
  by destruct (h e w') as [[r w''] t'].
Qed.

End monad_facts.

(** ** Properties of computations that compose along the monad *)

Section composition.
Context {A B : Type} (P : event → Prop).
Implicit Types (m : M A) (k : A → M B).

Lemma keeps_ret (a : A) : keeps (ret a).
Proof. done. Qed.

Lemma keeps_raise (e : exn) : keeps (@raise A e).
Proof. done. Qed.

Lemma keeps_bind m k : keeps m → (∀ a, keeps (k a)) → keeps (bind m k).
Proof.
  intros Hm Hk w. rewrite final_bind. destruct (result (m w)); [|apply Hm].
  by rewrite Hm, Hk.
Qed.

Lemma keeps_try m (h : exn → M A) :
  keeps m → (∀ e, keeps (h e)) → keeps (try_except m h).
Proof.
  intros Hm Hh w. rewrite final_try. destruct (result (m w)) as [|e]; [apply Hm|].
  destruct (is_EnvironmentError e); [|apply Hm]. by rewrite Hm, Hh.
Qed.

Lemma only_ret (a : A) : only P (ret a).
Proof. intros w. constructor. Qed.

Lemma only_raise (e : exn) : only P (@raise A e).
Proof. intros w. constructor. Qed.

Lemma only_bind m k :
  only P m → (∀ a, only P (k a)) → only P (bind m k).
Proof.
  intros Hm Hk w. rewrite trace_bind. apply Forall_app. split; [apply Hm|].
  destruct (result (m w)); [apply Hk | constructor].
Qed.

Lemma only_try m (h : exn → M A) :
  only P m → (∀ e, only P (h e)) → only P (try_except m h).
Proof.
  intros Hm Hh w. rewrite trace_try. apply Forall_app. split; [apply Hm|].
  destruct (result (m w)) as [|e]; [constructor|].
  destruct (is_EnvironmentError e); [apply Hh | constructor].
Qed.

End composition.

Lemma keeps_emit (e : event) : keeps (emit e).
Proof. done. Qed.

Lemma keeps_get_world : keeps get_world.
Proof. done. Qed.

Lemma keeps_when (c : bool) (m : M unit) : keeps m → keeps (when c m).
Proof. destruct c; [done | intros _; apply keeps_ret]. Qed.

Lemma only_emit (P : event → Prop) (e : event) : P e → only P (emit e).
Proof. intros He w. by repeat constructor. Qed.

Lemma only_get_world (P : event → Prop) : only P get_world.
Proof. intros w. constructor. Qed.

Lemma only_when (P : event → Prop) (c : bool) (m : M unit) :
  only P m → only P (when c m).
Proof. destruct c; [done | intros _; apply only_ret]. Qed.

Create HintDb frame discriminated.
#[local] Hint Resolve keeps_ret keeps_raise keeps_emit keeps_get_world
  keeps_when keeps_bind keeps_try : frame.
#[local] Hint Resolve only_ret only_raise only_emit only_get_world
  only_when only_try : frame.

(** Walks a computation along its binds and case distinctions. *)
Ltac frame_step :=
  first
    [ match goal with |- ∀ _, _ => intro end
    | solve [eauto 3 with frame]
    | match goal with
      | |- keeps (bind _ _) => apply keeps_bind
      | |- keeps (try_except _ _) => apply keeps_try
      | |- only _ (bind _ _) => apply only_bind
      | |- only _ (try_except _ _) => apply only_try
      | |- keeps (when _ _) => apply keeps_when
      | |- only _ (when _ _) => apply only_when
      | |- keeps (match ?x with _ => _ end) => destruct x
      | |- only _ (match ?x with _ => _ end) => destruct x
      | |- keeps (if ?x then _ else _) => destruct x
      | |- only _ (if ?x then _ else _) => destruct x
      | |- keeps (let _ := _ in _) => cbv zeta
      | |- only _ (let _ := _ in _) => cbv zeta
      end
    | solve [simpl; done] ].
Ltac frame := repeat frame_step.

(** *** What the resolver may do to files *)

Section frames.
Variable P : event → Prop.
Hypothesis P_print : ∀ text, P (EPrint text).
Hypothesis P_isdir : ∀ path, P (EIsDir path).
Hypothesis P_read : ∀ path, P (EOpen path "r").

Lemma keeps_print text : keeps (print text).
Proof. done. Qed.

Lemma only_print text : only P (print text).
Proof. apply only_emit, P_print. Qed.

Lemma keeps_isdir path : keeps (isdir path).
Proof. unfold isdir. frame. Qed.

Lemma only_isdir path : only P (isdir path).
Proof. unfold isdir. frame. Qed.

Lemma keeps_open_read path : keeps (open_read path).
Proof. unfold open_read. frame. Qed.

Lemma only_open_read path : only P (open_read path).
Proof. unfold open_read. frame. Qed.

Lemma keeps_Popen args : keeps (Popen args).
Proof. unfold Popen. frame. Qed.

#[local] Hint Resolve keeps_print only_print keeps_isdir only_isdir
  keeps_open_read only_open_read keeps_Popen : frame.

Lemma keeps_get_expanded_variable src : keeps (get_expanded_variable src).
Proof. unfold get_expanded_variable. frame. Qed.

Lemma only_get_expanded_variable src : only P (get_expanded_variable src).
Proof. unfold get_expanded_variable. frame. Qed.

Lemma keeps_version_from_file filename : keeps (version_from_file filename).
Proof. unfold version_from_file. frame. Qed.

Lemma only_version_from_file filename : only P (version_from_file filename).
Proof. unfold version_from_file. frame. Qed.

Lemma keeps_version_from_parentdir tp pp v : keeps (version_from_parentdir tp pp v).
Proof. unfold version_from_parentdir. frame. Qed.

Lemma only_version_from_parentdir tp pp v : only P (version_from_parentdir tp pp v).
Proof. unfold version_from_parentdir. frame. Qed.

#[local] Hint Resolve keeps_version_from_file only_version_from_file
  keeps_version_from_parentdir only_version_from_parentdir
  keeps_get_expanded_variable only_get_expanded_variable : frame.

Lemma keeps_get_best_version_from_file vf tp pp d v :
  keeps (get_best_version_from_file vf tp pp d v).
Proof. unfold get_best_version_from_file. frame. Qed.

Lemma only_get_best_version_from_file vf tp pp d v :
  only P (get_best_version_from_file vf tp pp d v).
Proof. unfold get_best_version_from_file. frame. Qed.

(** From here on the computations may start a process. *)
Hypothesis P_spawn : ∀ args, P (ESpawn args true).

Lemma only_Popen args : only P (Popen args).
Proof. unfold Popen. frame. Qed.

#[local] Hint Resolve only_Popen : frame.

Lemma keeps_run_command args v : keeps (run_command args v).
Proof. unfold run_command. frame. Qed.

Lemma only_run_command args v : only P (run_command args v).
Proof. unfold run_command. frame. Qed.

#[local] Hint Resolve keeps_run_command only_run_command : frame.

Lemma keeps_version_from_vcs tp v : keeps (version_from_vcs tp v).
Proof. unfold version_from_vcs. frame. Qed.

Lemma only_version_from_vcs tp v : only P (version_from_vcs tp v).
Proof. unfold version_from_vcs. frame. Qed.

#[local] Hint Resolve keeps_version_from_vcs only_version_from_vcs : frame.

Lemma keeps_version_from_expanded_variable s tp :
  keeps (version_from_expanded_variable s tp).
Proof. unfold version_from_expanded_variable. frame. Qed.

Lemma only_version_from_expanded_variable s tp :
  only P (version_from_expanded_variable s tp).
Proof. unfold version_from_expanded_variable. frame. Qed.

#[local] Hint Resolve keeps_version_from_expanded_variable
  only_version_from_expanded_variable
  keeps_get_best_version_from_file only_get_best_version_from_file : frame.

Lemma keeps_get_best_version vf tp pp d v : keeps (get_best_version vf tp pp d v).
Proof. unfold get_best_version. frame. Qed.

Lemma only_get_best_version vf tp pp d v : only P (get_best_version vf tp pp d v).
Proof. unfold get_best_version. frame. Qed.

#[local] Hint Resolve keeps_get_best_version only_get_best_version : frame.

Lemma keeps_get_version v : keeps (get_version v).
Proof. unfold get_version. frame. Qed.

Lemma only_get_version v : only P (get_version v).
Proof. unfold get_version. frame. Qed.

End frames.

(** ** What each function returns *)

(** Unfolds the monad so that a run computes. *)
Ltac run :=
  cbv [result final trace bind try_except when print isdir Popen open_read
       emit get_world ret raise fst snd is_EnvironmentError].

Lemma run_command_result args v w :
  result (run_command args v w) = Ret (command_output w args).
Proof.
  unfold run_command, command_output. run.
  destruct (w_popen w args) as [msg|out rc]; simpl.
  - by destruct v.
  - destruct (rc =? 0); simpl; [done | by destruct v].
Qed.

Lemma version_from_vcs_result tp v w :
  result (version_from_vcs tp v w) = Ret (describe_version w tp).
Proof.
  unfold version_from_vcs, describe_version.
  rewrite result_bind. rewrite (keeps_isdir ".git" w).
  replace (result (isdir ".git" w)) with (@Ret bool (bool_decide (".git" ∈ w_dirs w)))
    by done.
  destruct (bool_decide (".git" ∈ w_dirs w)); simpl.
  - rewrite result_bind, run_command_result, (keeps_run_command _ _ w).
    fold describe_args.
    destruct (command_output w describe_args) as [out|]; [|done].
    destruct (PyStr.startswith out tp); simpl; [done|].
    by destruct v.
  - by destruct v.
Qed.

Lemma version_from_file_result filename w :
  result (version_from_file filename w) =
  Ret (content ← w_files w !! filename;
       first_version_line (PyStr.readlines content)).
Proof.
  unfold version_from_file. run. by destruct (w_files w !! filename).
Qed.

Lemma version_from_parentdir_result tp pp v w :
  result (version_from_parentdir tp pp v w) =
  Ret (let dirname := posixpath.basename (posixpath.dirname (w_me w)) in
       if PyStr.startswith dirname pp
       then Some (PyStr.slice_from (String.length pp) dirname)
       else None).
Proof.
  unfold version_from_parentdir. run.
  destruct (PyStr.startswith _ pp); simpl; [done | by destruct v].
Qed.

Lemma get_expanded_variable_result src w :
  result (get_expanded_variable src w) =
  match src with
  | Some path =>
      Ret (content ← w_files w !! path;
           first_verstr_line (PyStr.readlines content))
  | None => Raise TypeError
  end.
Proof.
  unfold get_expanded_variable. destruct src as [path|]; run; [|done].
  by destruct (w_files w !! path).
Qed.

Lemma version_from_expanded_variable_run s tp w :
  version_from_expanded_variable s tp w =
  if PyStr.contains "$Format" (PyStr.strip s)
  then version_from_vcs tp false w
  else (Ret (Some (select_ref (parse_refs (PyStr.strip s)) tp)), w, []).
Proof.
  unfold version_from_expanded_variable.
  by destruct (PyStr.contains "$Format" (PyStr.strip s)).
Qed.

(** ** The chain of methods *)

Lemma result_get_world w : result (get_world w) = Ret w.
Proof. done. Qed.

Lemma final_get_world w : final (get_world w) = w.
Proof. done. Qed.

Lemma get_best_version_from_file_result vf tp pp d v w :
  result (get_best_version_from_file vf tp pp d v w) =
  first_applicable
    [ result (version_from_file vf w);
      result (version_from_parentdir tp pp v w);
      Ret d ].
Proof.
  unfold get_best_version_from_file.
  rewrite result_bind, (keeps_version_from_file vf w).
  destruct (result (version_from_file vf w)) as [[ver|]|e]; simpl; [|  |done].
  { by destruct v. }
  rewrite result_bind, (keeps_version_from_parentdir tp pp v w).
  destruct (result (version_from_parentdir tp pp v w)) as [[ver|]|e]; simpl; [| |done].
  { by destruct v. }
  destruct d as [ver|]; [|done]. by destruct v.
Qed.

Lemma get_best_version_result vf tp pp d v w :
  result (get_best_version vf tp pp d v w) =
  first_applicable (candidates w vf tp pp d v).
Proof.
  unfold get_best_version, candidates.
  rewrite result_bind, (keeps_version_from_vcs tp v w).
  destruct (result (version_from_vcs tp v w)) as [[ver|]|e]; simpl; [| |done].
  { by destruct v. }
  rewrite result_bind, result_get_world, final_get_world.
  rewrite result_bind, (keeps_get_expanded_variable _ w).
  unfold expanded_variable_scan at 1.
  rewrite result_bind, result_get_world, final_get_world.
  rewrite result_bind, (keeps_get_expanded_variable _ w).
  destruct (result (get_expanded_variable (g_versionfile_source w) w))
    as [verstr|e]; [|done].
  rewrite result_bind.
  assert (Hk : keeps (match verstr with
                      | Some s =>
                          if truthy verstr
                          then version_from_expanded_variable s tp
                          else ret None
                      | None => ret None
                      end)).
  { pose proof keeps_version_from_expanded_variable. frame. }
  rewrite (Hk w).
  destruct (result _) as [[ver|]|e]; simpl; [| |done].
  { by destruct v. }
  apply get_best_version_from_file_result.
Qed.

Lemma version_from_expanded_variable_result s tp w :
  result (version_from_expanded_variable s tp w) = Ret (expanded_version w s tp).
Proof.
  rewrite version_from_expanded_variable_run. unfold expanded_version.
  destruct (PyStr.contains "$Format" (PyStr.strip s)); [|done].
  apply version_from_vcs_result.
Qed.

Lemma expanded_variable_scan_result tp w :
  result (expanded_variable_scan tp w) =
  match g_versionfile_source w with
  | Some path =>
      match expanded_variable w path with
      | Some s => if PyStr.is_empty s then Ret None else Ret (expanded_version w s tp)
      | None => Ret None
      end
  | None => Raise TypeError
  end.
Proof.
  unfold expanded_variable_scan.
  rewrite result_bind, result_get_world, final_get_world.
  rewrite result_bind, (keeps_get_expanded_variable _ w).
  rewrite get_expanded_variable_result.
  destruct (g_versionfile_source w) as [path|]; [|done].
  fold (expanded_variable w path).
  destruct (expanded_variable w path) as [s|]; [|done].
  simpl. destruct (PyStr.is_empty s); simpl; [done|].
  apply version_from_expanded_variable_result.
Qed.

(** No method raises the error of the resolver itself. *)
Lemma candidates_raise w vf tp pp d v c e :
  c ∈ candidates w vf tp pp d v → c = Raise e → e = TypeError.
Proof.
  unfold candidates.
  rewrite version_from_vcs_result, expanded_variable_scan_result,
    version_from_file_result, version_from_parentdir_result.
  rewrite !elem_of_cons, elem_of_nil.
  intros [->|[->|[->|[->|[->|[]]]]]] Hc; try discriminate.
  destruct (g_versionfile_source w) as [path|]; [|by inversion Hc].
  destruct (expanded_variable w path) as [s|]; [|discriminate].
  by destruct (PyStr.is_empty s).
Qed.

Lemma first_applicable_skip cs1 cs2 :
  Forall inapplicable cs1 → first_applicable (cs1 ++ cs2) = first_applicable cs2.
Proof. induction 1 as [|c cs1 -> _ IH]; [done | exact IH]. Qed.

(** The chain over methods that all return is the resolution over what
    they return. *)
Lemma first_applicable_resolution results :
  first_applicable (Ret <$> results) = resolution results.
Proof.
  unfold resolution. induction results as [|[ver|] results IH]; [done..|].
  exact IH.
Qed.

Lemma resolution_no_version results :
  (∃ msg, resolution results = Raise (NoVersionError msg)) ↔
  Forall (λ r, r = None) results.
Proof.
  unfold resolution. induction results as [|[ver|] results IH]; simpl.
  - split; [constructor | eauto].
  - split; [by intros [msg ?] | intros H; by inversion H].
  - rewrite IH. split; [by constructor | intros H; by inversion H].
Qed.

(** C1, as the specification states it, fails.  In an unpacked archive whose
    variable expanded to the empty string, method 2 as the specification has
    it (a variable that is found is parsed) gives [unknown]; the resolver
    passes over the empty variable and returns what the name of the parent
    directory gives. *)
Lemma first_applicable_counterexample :
  ¬ (∀ vf tp pp d v w,
       ∃ v1 verstr v2 v3 v4,
         result (version_from_vcs tp v w) = Ret v1
         ∧ result (get_expanded_variable (Some vf) w) = Ret verstr
         ∧ match verstr with
           | Some s => result (version_from_expanded_variable s tp w) = Ret v2
           | None => v2 = None
           end
         ∧ result (version_from_file vf w) = Ret v3
         ∧ result (version_from_parentdir tp pp v w) = Ret v4
         ∧ result (get_best_version vf tp pp d v w) =
           resolution [v1; v2; v3; v4; d]).
Proof.
  intros H.
  destruct (H "src/_version.py" "v" "proj-" None false (archive_world EmptyString))
    as (v1 & verstr & v2 & v3 & v4 & H1 & Hvar & H2 & H3 & H4 & Hres).
  vm_compute in H1, Hvar, H3, H4, Hres.
  injection H1 as <-. injection Hvar as <-. injection H3 as <-. injection H4 as <-.
  vm_compute in H2. injection H2 as <-. discriminate Hres.
Qed.

(** C1, amended.  Where the module-level [versionfile_source] names the file
    the resolver is given as [versionfile], each of the four methods
    returns, and the resolver returns the first result there is among
    theirs and the default, taken in the order VCS describe,
    expanded-variable scan, plain version file, parent-directory name,
    caller default.  The scan has a result only for a variable that is found
    and is not empty.  The resolver raises [NoVersionError] exactly when none
    of the five has a result; with a default it returns, and returns the
    default when the four methods have none. *)
Theorem get_best_version_first_result vf tp pp d v w :
  g_versionfile_source w = Some vf →
  ∃ v1 verstr v2 v3 v4,
    result (version_from_vcs tp v w) = Ret v1
    ∧ result (get_expanded_variable (Some vf) w) = Ret verstr
    ∧ match verstr with
      | Some s =>
          if PyStr.is_empty s then v2 = None
          else result (version_from_expanded_variable s tp w) = Ret v2
      | None => v2 = None
      end
    ∧ result (version_from_file vf w) = Ret v3
    ∧ result (version_from_parentdir tp pp v w) = Ret v4
    ∧ result (get_best_version vf tp pp d v w) = resolution [v1; v2; v3; v4; d]
    ∧ ((∃ msg, result (get_best_version vf tp pp d v w) = Raise (NoVersionError msg))
       ↔ v1 = None ∧ v2 = None ∧ v3 = None ∧ v4 = None ∧ d = None)
    ∧ (∀ ver, d = Some ver →
         (∃ ver', result (get_best_version vf tp pp d v w) = Ret ver')
         ∧ (v1 = None → v2 = None → v3 = None → v4 = None →
            result (get_best_version vf tp pp d v w) = Ret ver)).
Proof.
  intros Hsrc.
  pose proof (get_best_version_result vf tp pp d v w) as Hres.
  unfold candidates in Hres.
  rewrite expanded_variable_scan_result, Hsrc in Hres.
  pose proof (version_from_vcs_result tp v w) as H1.
  pose proof (version_from_file_result vf w) as H3.
  pose proof (version_from_parentdir_result tp pp v w) as H4.
  rewrite H1, H3, H4 in Hres |- *.
  match type of H1 with _ = Ret ?x => set (v1 := x) in * end.
  match type of H3 with _ = Ret ?x => set (v3 := x) in * end.
  match type of H4 with _ = Ret ?x => set (v4 := x) in * end.
  rewrite get_expanded_variable_result. fold (expanded_variable w vf).
  pose (v2 := match expanded_variable w vf with
              | Some s => if PyStr.is_empty s then None else expanded_version w s tp
              | None => None
              end).
  exists v1, (expanded_variable w vf), v2, v3, v4.
  assert (result (get_best_version vf tp pp d v w) = resolution [v1; v2; v3; v4; d])
    as Hchain.
  { rewrite Hres, <- first_applicable_resolution. cbn [fmap list_fmap]. subst v2.
    destruct (expanded_variable w vf) as [s|]; [|done].
    by destruct (PyStr.is_empty s). }
  split; [done|]. split; [done|]. split.
  { subst v2. destruct (expanded_variable w vf) as [s|]; [|done].
    destruct (PyStr.is_empty s); [done|].
    apply version_from_expanded_variable_result. }
  split; [done|]. split; [done|]. split; [done|]. rewrite Hchain. split.
  - rewrite resolution_no_version, !Forall_cons, Forall_nil. tauto.
  - intros ver ->. split.
    + unfold resolution. cbn [first_result].
      destruct v1, v2, v3, v4; eauto.
    + by intros -> -> -> ->.
Qed.

(** A source distribution with a plain version file, a telling directory
    name and a default: the version file decides. *)
Lemma get_best_version_first_result_witness :
  result (get_best_version "src/_version.py" "v" "proj-" (Some "0.0.0+unknown")
            false (sdist_world (Some "src/_version.py")))
  = resolution [None; None; Some "0.9.1"; Some "3.4.5"; Some "0.0.0+unknown"].
Proof.
  destruct (get_best_version_first_result "src/_version.py" "v" "proj-"
              (Some "0.0.0+unknown") false (sdist_world (Some "src/_version.py"))
              eq_refl)
    as (v1 & verstr & v2 & v3 & v4 & H1 & Hvar & H2 & H3 & H4 & Hres & _).
  vm_compute in H1, Hvar, H3, H4.
  injection H1 as <-. injection Hvar as <-. injection H3 as <-. injection H4 as <-.
  cbn in H2. rewrite H2 in Hres. exact Hres.
Defined.

(** With the module-level setting unset, a resolution that gets past method
    1 raises [TypeError], whatever the other methods would give. *)
Lemma get_best_version_unset_setting vf tp pp d v w :
  g_versionfile_source w = None →
  result (version_from_vcs tp v w) = Ret None →
  result (get_best_version vf tp pp d v w) = Raise TypeError.
Proof.
  intros Hunset Hvcs. rewrite get_best_version_result. unfold candidates.
  by rewrite Hvcs, expanded_variable_scan_result, Hunset.
Qed.

(** The same source distribution resolved while the module-level setting is
    still unset: the plain version file, the directory name and the default
    are all there, and the resolver raises [TypeError]. *)
Example resolve_unset_setting :
  result (get_best_version "src/_version.py" "v" "proj-" (Some "0.0.0+unknown")
            false (sdist_world None))
  = Raise TypeError.
Proof. vm_compute. done. Qed.

(** The resolver at work. *)
Example resolve_checkout :
  result (get_best_version "src/_version.py" "v" "proj-" None false checkout_world)
  = Ret "1.2.0-dirty".
Proof. vm_compute. done. Qed.

Example resolve_archive :
  result (get_best_version "src/_version.py" "v" "proj-" None false
            (archive_world "(HEAD, v2.0.0, master)"))
  = Ret "2.0.0".
Proof. vm_compute. done. Qed.

(** A ref that the archive writes as [tag: v2.0.0] does not start with the
    prefix [v]. *)
Example resolve_archive_decorated :
  result (get_best_version "src/_version.py" "v" "proj-" None false
            (archive_world "(tag: v2.0.0, HEAD)"))
  = Ret "unknown".
Proof. vm_compute. done. Qed.

Example resolve_parentdir :
  result (get_best_version "src/_version.py" "v" "proj-" None false
            (archive_world "$Format:%d$"))
  = Ret "1.0".
Proof. vm_compute. done. Qed.

Example resolve_default :
  result (get_best_version "src/_version.py" "v" "proj-" (Some "0.0.0+unknown")
            false bare_world)
  = Ret "0.0.0+unknown"
  ∧ result (get_best_version "src/_version.py" "v" "proj-" None false bare_world)
    = Raise (NoVersionError "Unable to compute version at all").
Proof. vm_compute. done. Qed.

(** ** The choice among the refs of an expanded variable *)

Section ref_selection.
Variable tag_prefix : string.




(** Whatever order the set is iterated in, [sorted] brings it to the same
    list. *)
Lemma descending_any_order (refs : gset string) (l : list string) :
  NoDup l → (∀ r, r ∈ l ↔ r ∈ refs) → descending l = descending (elements refs).
Proof.
  intros Hnd Hl. unfold descending. f_equal.
  apply (Sorted_unique String.le); [apply Sorted_merge_sort, _..|].
  rewrite !merge_sort_Permutation.
  apply NoDup_Permutation; [done | apply NoDup_elements|].
  intros r. by rewrite Hl, elem_of_elements.
Qed.

(** The result does not depend on the order in which the set hands out
    its elements. *)
Lemma select_ref_any_order (refs : gset string) (l : list string) :
  NoDup l → (∀ r, r ∈ l ↔ r ∈ kept refs) →
  first_with_prefix (descending l) tag_prefix = select_ref refs tag_prefix.
Proof.
  intros Hnd Hl. by rewrite (descending_any_order (kept refs) l).
Qed.



End ref_selection.


(** *** The refs in the text of the variable *)










(** ** Method 1 *)

(** C3.  [version_from_vcs] returns [None], and raises nothing, when the
    working directory has no [.git] directory and when the output of
    [git describe] does not start with the tag prefix; a version it returns
    is that output with the tag prefix taken off its front. *)
Theorem version_from_vcs_applicability tp v w :
  (".git" ∉ w_dirs w → result (version_from_vcs tp v w) = Ret None)
  ∧ (∀ raw, w_popen w describe_args = Exits raw 0 →
            PyStr.startswith (PyStr.strip raw) tp = false →
            result (version_from_vcs tp v w) = Ret None)
  ∧ (∀ ver, result (version_from_vcs tp v w) = Ret (Some ver) →
            ".git" ∈ w_dirs w ∧
            ∃ raw, w_popen w describe_args = Exits raw 0 ∧
                   PyStr.strip raw = tp +:+ ver)
  ∧ (∀ raw, ".git" ∈ w_dirs w → w_popen w describe_args = Exits raw 0 →
            PyStr.startswith (PyStr.strip raw) tp = true →
            result (version_from_vcs tp v w) =
            Ret (Some (PyStr.slice_from (String.length tp) (PyStr.strip raw)))).
Proof.
  rewrite version_from_vcs_result. unfold describe_version, command_output.
  split; [|split; [|split]].
  - intros Hgit. by rewrite bool_decide_eq_false_2.
  - intros raw -> Hpre. simpl. rewrite Hpre. by destruct (bool_decide _).
  - intros ver.
    destruct (bool_decide_reflect (".git" ∈ w_dirs w)) as [Hgit|]; [|discriminate].
    intros Hres. split; [done|]. revert Hres.
    destruct (w_popen w describe_args) as [msg|raw rc]; [discriminate|].
    destruct (rc =? 0) eqn:Hrc; [|discriminate].
    apply Z.eqb_eq in Hrc as ->.
    destruct (PyStr.startswith (PyStr.strip raw) tp) eqn:Hpre; [|discriminate].
    intros [= <-]. exists raw. split; [done|]. by apply startswith_inv.
  - intros raw Hgit -> Hpre. simpl. rewrite Hpre. by rewrite bool_decide_eq_true_2.
Qed.

Lemma command_output_fails w args : tool_fails w args → command_output w args = None.
Proof.
  unfold tool_fails, command_output. destruct (w_popen w args) as [msg|raw rc]; [done|].
  intros Hrc. by apply Z.eqb_neq in Hrc as ->.
Qed.

Lemma first_applicable_raise cs e :
  first_applicable cs = Raise e →
  (∃ msg, e = NoVersionError msg) ∨ Raise e ∈ cs.
Proof.
  induction cs as [|[[ver|]|e'] cs IH]; simpl; intros H.
  - left. inversion H. eauto.
  - discriminate.
  - destruct (IH H) as [?|?]; [by left | right; by right].
  - right. inversion H; subst. by left.
Qed.

(** C6.  When the external tool cannot be started or exits with a status
    other than 0, [run_command] returns [None], so does method 1, and the
    resolver goes on with the remaining methods; [get_best_version] never
    raises [EnvironmentError]. *)
Theorem tool_failure_is_absorbed vf tp pp d v w :
  (∀ args, tool_fails w args → result (run_command args v w) = Ret None)
  ∧ (tool_fails w describe_args →
       result (version_from_vcs tp v w) = Ret None ∧
       result (get_best_version vf tp pp d v w) =
       first_applicable (tail (candidates w vf tp pp d v)))
  ∧ (∀ msg, result (get_best_version vf tp pp d v w) ≠ Raise (EnvironmentError msg)).
Proof.
  split; [|split].
  - intros args Hfail. by rewrite run_command_result, command_output_fails.
  - intros Hfail.
    assert (result (version_from_vcs tp v w) = Ret None) as Hvcs.
    { rewrite version_from_vcs_result. unfold describe_version.
      rewrite command_output_fails by done. by destruct (bool_decide _). }
    split; [done|]. rewrite get_best_version_result. unfold candidates.
    by rewrite Hvcs.
  - intros msg Hraise. rewrite get_best_version_result in Hraise.
    apply first_applicable_raise in Hraise as [[msg' ?]|Hin]; [done|].
    by pose proof (candidates_raise _ _ _ _ _ _ _ _ Hin eq_refl).
Qed.

(** ** Method 2 *)

Lemma contains_marker_nonempty s :
  PyStr.contains "$Format" (PyStr.strip s) = true → PyStr.is_empty s = false.
Proof. by destruct s. Qed.

Lemma get_expanded_variable_found w s :
  result (get_expanded_variable (g_versionfile_source w) w) = Ret (Some s) →
  ∃ path, g_versionfile_source w = Some path ∧ expanded_variable w path = Some s.
Proof.
  rewrite get_expanded_variable_result.
  destruct (g_versionfile_source w) as [path|]; [|discriminate].
  intros [= H]. by exists path.
Qed.

(** C4.  On a variable that still holds the unexpanded marker, method 2 is
    the run of method 1; and when that run is inapplicable too, the resolver
    goes on with the plain version file, the parent directory and the
    default. *)
Theorem unexpanded_marker_delegates s tp w :
  PyStr.contains "$Format" (PyStr.strip s) = true →
  version_from_expanded_variable s tp w = version_from_vcs tp false w
  ∧ ∀ vf pp d v,
      result (get_expanded_variable (g_versionfile_source w) w) = Ret (Some s) →
      result (version_from_vcs tp false w) = Ret None →
      result (get_best_version vf tp pp d v w) =
      first_applicable
        [ result (version_from_file vf w);
          result (version_from_parentdir tp pp v w);
          Ret d ].
Proof.
  intros Hmarker. split.
  - by rewrite version_from_expanded_variable_run, Hmarker.
  - intros vf pp d v Hvar Hvcs.
    apply get_expanded_variable_found in Hvar as (path & Hsrc & Hvar).
    rewrite version_from_vcs_result in Hvcs. injection Hvcs as Hvcs.
    rewrite get_best_version_result. unfold candidates.
    rewrite version_from_vcs_result, expanded_variable_scan_result, Hvcs, Hsrc, Hvar.
    rewrite (contains_marker_nonempty s Hmarker). unfold expanded_version.
    by rewrite Hmarker, Hvcs.
Qed.

(** A plain archive of the project: the marker was not expanded and there is
    no repository, so the version comes from the directory name. *)
Lemma unexpanded_marker_delegates_witness :
  result (get_best_version "src/_version.py" "v" "proj-" None false
            (archive_world "$Format:%d$"))
  = first_applicable
      [ result (version_from_file "src/_version.py" (archive_world "$Format:%d$"));
        result (version_from_parentdir "v" "proj-" false (archive_world "$Format:%d$"));
        Ret None ].
Proof.
  apply (proj2 (unexpanded_marker_delegates "$Format:%d$" "v"
                  (archive_world "$Format:%d$") eq_refl)).
  - vm_compute. reflexivity.
  - vm_compute. reflexivity.
Defined.

(** C5, as the specification states it, fails: in an archive whose variable
    expanded to the empty string, method 2 would return [unknown], and the
    resolver returns the version of the directory name. *)
Lemma empty_variable_counterexample :
  ¬ (∀ w vf tp pp d v,
       result (version_from_vcs tp v w) = Ret None →
       result (get_expanded_variable (g_versionfile_source w) w) = Ret (Some EmptyString) →
       ∃ ver,
         result (version_from_expanded_variable EmptyString tp w) = Ret (Some ver) ∧
         result (get_best_version vf tp pp d v w) = Ret ver).
Proof.
  intros H.
  destruct (H (archive_world EmptyString) "src/_version.py" "v" "proj-" None false)
    as (ver & Hver & Hbest).
  - vm_compute. reflexivity.
  - vm_compute. reflexivity.
  - vm_compute in Hver. vm_compute in Hbest. congruence.
Qed.

(** C5, amended.  A method that returns the empty string is applicable, and
    the resolver returns the empty string; but a variable whose extracted
    value is the empty string is passed over like an absent one, and
    resolution goes on with the plain version file. *)
Theorem empty_string_is_a_result vf tp pp d v w :
  (∀ before after,
     candidates w vf tp pp d v = before ++ Ret (Some EmptyString) :: after →
     Forall inapplicable before →
     result (get_best_version vf tp pp d v w) = Ret EmptyString)
  ∧ (result (version_from_vcs tp v w) = Ret None →
     result (get_expanded_variable (g_versionfile_source w) w) = Ret (Some EmptyString) →
     result (expanded_variable_scan tp w) = Ret None ∧
     result (get_best_version vf tp pp d v w) =
     first_applicable
       [ result (version_from_file vf w);
         result (version_from_parentdir tp pp v w);
         Ret d ]).
Proof.
  split.
  - intros before after Hcs Hbefore.
    by rewrite get_best_version_result, Hcs, first_applicable_skip.
  - intros Hvcs Hvar.
    apply get_expanded_variable_found in Hvar as (path & Hsrc & Hvar).
    assert (result (expanded_variable_scan tp w) = Ret None) as Hscan.
    { by rewrite expanded_variable_scan_result, Hsrc, Hvar. }
    split; [done|].
    rewrite get_best_version_result. unfold candidates. by rewrite Hvcs, Hscan.
Qed.

(** ** The file method 2 reads *)

(** C7 fails on the code.  Two calls with the same arguments, in the same
    file system and repository state, return different versions: method 2
    reads the file the module-level setting [versionfile_source] names, not
    the file of the argument [versionfile]; and with the setting unset the
    call raises [TypeError]. *)
Theorem get_best_version_reads_module_setting :
  let run setting :=
    result (get_best_version "a/_version.py" "v" "proj-" None false
              (two_files_world setting)) in
  run (Some "a/_version.py") = Ret "1.0"
  ∧ run (Some "b/_version.py") = Ret "2.0"
  ∧ run None = Raise TypeError.
Proof. vm_compute. done. Qed.

(** ** Method 3 *)

Section version_line.

Lemma exec_lit p r grp s :
  Re.exec (Re.lit p ++ r) false grp s =
  if PyStr.startswith s p
  then Re.exec r false grp (PyStr.slice_from (String.length p) s)
  else None.
Proof.
  unfold PyStr.startswith. revert s.
  induction p as [|c p IH]; intros s.
  - by destruct s.
  - destruct s as [|d s]; [done|]. simpl.
    destruct (ascii_dec c d) as [->|Hne].
    + rewrite Ascii.eqb_refl. apply IH.
    + by apply Ascii.eqb_neq in Hne as ->.
Qed.

Variable q : ascii.

(** The rest of the pattern once the group is open: characters other than
    [q], the end of the group, and [q]. *)
Lemma greedy_until grp s g :
  Re.greedy (Re.not_char q) true (Re.exec [Re.GroupClose; Re.Chr q] true) grp s
  = Some g →
  ∃ run rest,
    s = run +:+ String q rest ∧ g = grp +:+ run ∧ PyStr.mem_char q run = false.
Proof.
  revert grp. induction s as [|c s IH]; intros grp; simpl; [done|].
  unfold Re.not_char at 1. destruct (Ascii.eqb_spec c q) as [->|Hne]; simpl.
  - rewrite Ascii.eqb_refl. intros [= <-].
    exists EmptyString, s. by rewrite app_empty_r.
  - assert (Ascii.eqb q c = false) as Hqc by (apply Ascii.eqb_neq; congruence).
    destruct (Re.greedy _ _ _ _ s) as [g'|] eqn:Hg.
    + intros [= <-]. apply IH in Hg as (run & rest & -> & -> & Hrun).
      exists (String c run), rest. split; [done|]. split.
      * unfold Re.push. by rewrite app_assoc_str.
      * simpl. by rewrite Hrun, Hqc.
    + by rewrite Hqc.
Qed.

Lemma plus_group_nonempty s g :
  Re.exec [Re.GroupOpen; Re.Plus (Re.not_char q); Re.GroupClose; Re.Chr q]
    false EmptyString s = Some g →
  g ≠ EmptyString ∧ PyStr.mem_char q g = false ∧
  ∃ rest, s = g +:+ String q rest.
Proof.
  simpl. destruct s as [|c s]; [done|].
  unfold Re.not_char at 1. destruct (Ascii.eqb_spec c q) as [->|Hne]; [done|].
  assert (Ascii.eqb q c = false) as Hqc by (apply Ascii.eqb_neq; congruence).
  simpl. intros Hg. apply greedy_until in Hg as (run & rest & -> & -> & Hrun).
  split; [done|]. split; [|by exists rest].
  change (PyStr.mem_char q (String c run) = false).
  simpl. by rewrite Hrun, Hqc.
Qed.

End version_line.

Lemma version_line_match line ver :
  Re.match_ version_line_re line = Some ver →
  ver ≠ EmptyString ∧ PyStr.mem_char "'"%char ver = false ∧
  ∃ rest, line = "__version__ = '" +:+ ver +:+ "'" +:+ rest.
Proof.
  unfold Re.match_, version_line_re. rewrite exec_lit.
  destruct (PyStr.startswith line "__version__ = '") eqn:Hpre; [|done].
  intros Hg. apply plus_group_nonempty in Hg as (Hne & Hq & rest & Hrest).
  split; [done|]. split; [done|]. exists rest.
  rewrite (startswith_inv _ _ Hpre), Hrest. done.
Qed.

Lemma first_version_line_found lines ver :
  first_version_line lines = Some ver →
  ∃ before line after,
    lines = before ++ line :: after ∧
    Forall (λ l, Re.match_ version_line_re l = None) before ∧
    Re.match_ version_line_re line = Some ver.
Proof.
  induction lines as [|l lines IH]; simpl; [done|].
  destruct (Re.match_ version_line_re l) as [v|] eqn:Hl.
  - intros [= ->]. by exists [], l, lines.
  - intros H. apply IH in H as (before & line & after & -> & Hbefore & Hline).
    exists (l :: before), line, after. split; [done|]. split; [|done].
    by constructor.
Qed.

Lemma first_version_line_none lines :
  Forall (λ l, Re.match_ version_line_re l = None) lines →
  first_version_line lines = None.
Proof.
  induction 1 as [|l lines Hl _ IH]; [done|].
  cbn [first_version_line]. by rewrite Hl.
Qed.

Lemma empty_version_line_no_match rest :
  Re.match_ version_line_re ("__version__ = ''" +:+ rest) = None.
Proof. done. Qed.

(** C10.  A version [version_from_file] returns is never the empty string:
    it is the text between the single quotes of the first line of the file
    that the pattern matches, at least one character long and free of single
    quotes; a line that assigns the empty string does not match. *)
Theorem version_from_file_nonempty filename w :
  (∀ ver, result (version_from_file filename w) = Ret (Some ver) →
     ver ≠ EmptyString ∧ PyStr.mem_char "'"%char ver = false ∧
     ∃ content before line after rest,
       w_files w !! filename = Some content ∧
       PyStr.readlines content = before ++ line :: after ∧
       Forall (λ l, Re.match_ version_line_re l = None) before ∧
       line = "__version__ = '" +:+ ver +:+ "'" +:+ rest)
  ∧ (∀ rest, Re.match_ version_line_re ("__version__ = ''" +:+ rest) = None)
  ∧ (∀ content,
       w_files w !! filename = Some content →
       Forall (λ l, ∃ rest, l = "__version__ = ''" +:+ rest)
         (PyStr.readlines content) →
       result (version_from_file filename w) = Ret None).
Proof.
  rewrite version_from_file_result. split; [|split].
  - intros ver [= Hver].
    destruct (w_files w !! filename) as [content|]; [|done]. simpl in Hver.
    apply first_version_line_found in Hver
      as (before & line & after & Hlines & Hbefore & Hline).
    apply version_line_match in Hline as (Hne & Hq & rest & ->).
    split; [done|]. split; [done|]. by eexists content, before, _, after, rest.
  - apply empty_version_line_no_match.
  - intros content -> Hall. simpl. f_equal.
    apply first_version_line_none. eapply Forall_impl; [exact Hall|].
    intros l [rest ->]. apply empty_version_line_no_match.
Qed.

(** ** The verbose flag *)

Lemma quiet_app t1 t2 : quiet (t1 ++ t2) = quiet t1 ++ quiet t2.
Proof. apply filter_app. Qed.

Section adds_prints.
Context {A B : Type}.

Lemma adds_prints_ret (a : A) : adds_prints (ret a) (ret a).
Proof. done. Qed.

Lemma adds_prints_raise (e : exn) : adds_prints (@raise A e) (raise e).
Proof. done. Qed.

Lemma adds_prints_bind (m1 m2 : M A) (k1 k2 : A → M B) :
  adds_prints m1 m2 → (∀ a, adds_prints (k1 a) (k2 a)) →
  adds_prints (bind m1 k1) (bind m2 k2).
Proof.
  intros Hm Hk w. destruct (Hm w) as (Hr & Hf & Ht).
  rewrite !result_bind, !final_bind, !trace_bind, quiet_app, Hr, Hf, Ht.
  destruct (result (m2 w)) as [a|e]; [|done].
  destruct (Hk a (final (m2 w))) as (-> & -> & ->). done.
Qed.

Lemma adds_prints_try (m1 m2 : M A) (h1 h2 : exn → M A) :
  adds_prints m1 m2 → (∀ e, adds_prints (h1 e) (h2 e)) →
  adds_prints (try_except m1 h1) (try_except m2 h2).
Proof.
  intros Hm Hh w. destruct (Hm w) as (Hr & Hf & Ht).
  rewrite !result_try, !final_try, !trace_try, quiet_app, Hr, Hf, Ht.
  destruct (result (m2 w)) as [a|e]; [done|].
  destruct (is_EnvironmentError e); [|done].
  destruct (Hh e (final (m2 w))) as (-> & -> & ->). done.
Qed.

End adds_prints.

Lemma adds_prints_emit (e : event) : ¬ is_print e → adds_prints (emit e) (emit e).
Proof. intros He w. by destruct e. Qed.

Lemma adds_prints_get_world : adds_prints get_world get_world.
Proof. done. Qed.

(** [if verbose: print ...] against nothing at all *)
Lemma adds_prints_when_print (c : bool) (text : string) :
  adds_prints (when c (print text)) (when false (print text)).
Proof. by destruct c. Qed.

Lemma adds_prints_when_prints (c : bool) (text1 text2 : string) :
  adds_prints (when c (print text1;; print text2))
    (when false (print text1;; print text2)).
Proof. by destruct c. Qed.

Create HintDb verbose discriminated.
#[local] Hint Resolve adds_prints_ret adds_prints_raise adds_prints_get_world
  adds_prints_when_print adds_prints_when_prints : verbose.

(** Walks two runs of one function that differ in the flag only. *)
Ltac verbose_step :=
  first
    [ match goal with |- ∀ _, _ => intro end
    | solve [eauto 2 with verbose]
    | match goal with
      | |- adds_prints (bind _ _) (bind _ _) => apply adds_prints_bind
      | |- adds_prints (try_except _ _) (try_except _ _) => apply adds_prints_try
      | |- adds_prints (emit _) (emit _) => apply adds_prints_emit; simpl; tauto
      | |- adds_prints (match ?x with _ => _ end) (match ?x with _ => _ end) =>
          destruct x
      | |- adds_prints (if ?x then _ else _) (if ?x then _ else _) => destruct x
      | |- adds_prints (let _ := _ in _) _ => cbv zeta
      end ].
Ltac verbose := repeat verbose_step.

Lemma adds_prints_isdir path : adds_prints (isdir path) (isdir path).
Proof. unfold isdir. verbose. Qed.

Lemma adds_prints_open_read path : adds_prints (open_read path) (open_read path).
Proof. unfold open_read. verbose. Qed.

Lemma adds_prints_Popen args : adds_prints (Popen args) (Popen args).
Proof. unfold Popen. verbose. Qed.

#[local] Hint Resolve adds_prints_isdir adds_prints_open_read adds_prints_Popen
  : verbose.

Lemma adds_prints_run_command args v :
  adds_prints (run_command args v) (run_command args false).
Proof. unfold run_command. verbose. Qed.

#[local] Hint Resolve adds_prints_run_command : verbose.

Lemma adds_prints_version_from_vcs tp v :
  adds_prints (version_from_vcs tp v) (version_from_vcs tp false).
Proof. unfold version_from_vcs. verbose. Qed.

Lemma adds_prints_version_from_file filename :
  adds_prints (version_from_file filename) (version_from_file filename).
Proof. unfold version_from_file. verbose. Qed.

Lemma adds_prints_version_from_parentdir tp pp v :
  adds_prints (version_from_parentdir tp pp v) (version_from_parentdir tp pp false).
Proof. unfold version_from_parentdir. verbose. Qed.

Lemma adds_prints_get_expanded_variable src :
  adds_prints (get_expanded_variable src) (get_expanded_variable src).
Proof. unfold get_expanded_variable. verbose. Qed.

#[local] Hint Resolve adds_prints_version_from_vcs adds_prints_version_from_file
  adds_prints_version_from_parentdir adds_prints_get_expanded_variable : verbose.

Lemma adds_prints_version_from_expanded_variable s tp :
  adds_prints (version_from_expanded_variable s tp)
    (version_from_expanded_variable s tp).
Proof. unfold version_from_expanded_variable. verbose. Qed.

#[local] Hint Resolve adds_prints_version_from_expanded_variable : verbose.

Lemma adds_prints_get_best_version_from_file vf tp pp d v :
  adds_prints (get_best_version_from_file vf tp pp d v)
    (get_best_version_from_file vf tp pp d false).
Proof. unfold get_best_version_from_file. verbose. Qed.

#[local] Hint Resolve adds_prints_get_best_version_from_file : verbose.

Lemma adds_prints_get_best_version vf tp pp d v :
  adds_prints (get_best_version vf tp pp d v) (get_best_version vf tp pp d false).
Proof. unfold get_best_version. verbose. Qed.

(** C8.  A verbose run of the resolver and a silent one, from the same
    world, end in the same outcome (the same version or the same error) and
    leave the same world; without its printed lines the trace of the verbose
    run is the trace of the silent run, which prints nothing: the same
    checks, processes and files in the same order. *)
Theorem verbose_only_adds_output vf tp pp d w :
  let loud := get_best_version vf tp pp d true w in
  let silent := get_best_version vf tp pp d false w in
  result loud = result silent
  ∧ final loud = final silent
  ∧ quiet (trace loud) = trace silent
  ∧ quiet (trace silent) = trace silent.
Proof.
  intros loud silent.
  destruct (adds_prints_get_best_version vf tp pp d true w) as (? & ? & ?).
  destruct (adds_prints_get_best_version vf tp pp d false w) as (_ & _ & ?).
  done.
Qed.

(** ** Processes and files *)

Lemma spawns_app t1 t2 : spawns (t1 ++ t2) = spawns t1 ++ spawns t2.
Proof. apply filter_app. Qed.

Lemma spawns_none t : Forall (λ e, ¬ is_spawn e) t → spawns t = [].
Proof.
  induction 1 as [|e t He _ IH]; [done|].
  unfold spawns. rewrite filter_cons_False by done. exact IH.
Qed.

Lemma spawns_version_from_vcs tp v w :
  spawns (trace (version_from_vcs tp v w)) =
  if bool_decide (".git" ∈ w_dirs w) then [ESpawn describe_args true] else [].
Proof.
  unfold version_from_vcs, run_command. run.
  destruct (bool_decide (".git" ∈ w_dirs w)); simpl; [|by destruct v].
  fold describe_args.
  destruct (w_popen w describe_args) as [msg|raw rc]; simpl; [done|].
  destruct (rc =? 0); simpl; [|done].
  destruct (PyStr.startswith (PyStr.strip raw) tp); simpl; [done|].
  by destruct v.
Qed.

Section no_process.
Let P (e : event) : Prop := ¬ is_spawn e.

Lemma spawns_get_expanded_variable src w :
  spawns (trace (get_expanded_variable src w)) = [].
Proof. apply spawns_none, (only_get_expanded_variable P); intros; exact id. Qed.

Lemma spawns_version_from_file filename w :
  spawns (trace (version_from_file filename w)) = [].
Proof. apply spawns_none, (only_version_from_file P); intros; exact id. Qed.

Lemma spawns_version_from_parentdir tp pp v w :
  spawns (trace (version_from_parentdir tp pp v w)) = [].
Proof. apply spawns_none, (only_version_from_parentdir P); intros; exact id. Qed.

Lemma spawns_get_best_version_from_file vf tp pp d v w :
  spawns (trace (get_best_version_from_file vf tp pp d v w)) = [].
Proof. apply spawns_none, (only_get_best_version_from_file P); intros; exact id. Qed.

End no_process.

Lemma spawns_version_from_expanded_variable s tp w :
  spawns (trace (version_from_expanded_variable s tp w)) =
  if PyStr.contains "$Format" (PyStr.strip s)
  then spawns (trace (version_from_vcs tp false w))
  else [].
Proof.
  rewrite version_from_expanded_variable_run.
  by destruct (PyStr.contains "$Format" (PyStr.strip s)).
Qed.

(** Zero or one run of [git describe]. *)
Lemma spawns_version_from_vcs_count tp v w :
  ∃ n, (n ≤ 1)%nat ∧
       spawns (trace (version_from_vcs tp v w)) =
       replicate n (ESpawn describe_args true).
Proof.
  rewrite spawns_version_from_vcs.
  destruct (bool_decide _); [exists 1%nat | exists 0%nat]; (split; [lia | done]).
Qed.

Lemma spawns_when_print c text w : spawns (trace (when c (print text) w)) = [].
Proof. by destruct c. Qed.

Lemma spawns_get_best_version vf tp pp d v w :
  ∃ n, (n ≤ 2)%nat ∧
       spawns (trace (get_best_version vf tp pp d v w)) =
       replicate n (ESpawn describe_args true).
Proof.
  unfold get_best_version.
  rewrite trace_bind, spawns_app, (keeps_version_from_vcs tp v w).
  destruct (spawns_version_from_vcs_count tp v w) as (n1 & Hn1 & ->).
  destruct (result (version_from_vcs tp v w)) as [[ver|]|e].
  - exists n1. split; [lia|].
    rewrite trace_bind, spawns_app, spawns_when_print.
    by destruct (result _); rewrite app_nil_r.
  - rewrite trace_bind, spawns_app, result_get_world, final_get_world.
    rewrite trace_bind, spawns_app, spawns_get_expanded_variable.
    rewrite (keeps_get_expanded_variable _ w). simpl.
    destruct (result (get_expanded_variable (g_versionfile_source w) w))
      as [verstr|e]; [|exists n1; split; [lia | by rewrite app_nil_r]].
    rewrite trace_bind, spawns_app.
    assert (∃ n2, (n2 ≤ 1)%nat ∧
              spawns (trace (match verstr with
                             | Some s =>
                                 if truthy verstr
                                 then version_from_expanded_variable s tp
                                 else ret None
                             | None => ret None
                             end w)) = replicate n2 (ESpawn describe_args true) ∧
              final (match verstr with
                     | Some s =>
                         if truthy verstr
                         then version_from_expanded_variable s tp
                         else ret None
                     | None => ret None
                     end w) = w) as (n2 & Hn2 & -> & ->).
    { destruct verstr as [s|]; [|exists 0%nat; (split; [lia | done])].
      destruct (truthy (Some s)); [|exists 0%nat; (split; [lia | done])].
      rewrite spawns_version_from_expanded_variable.
      rewrite (keeps_version_from_expanded_variable s tp w).
      destruct (PyStr.contains _ _); [|exists 0%nat; (split; [lia | done])].
      destruct (spawns_version_from_vcs_count tp false w) as (n & ? & ->).
      exists n. split; [lia | done]. }
    exists (n1 + n2)%nat. split; [lia|].
    rewrite replicate_add. f_equal.
    destruct (result _) as [[ver|]|e]; rewrite ?app_nil_r; [|  |done].
    + rewrite trace_bind, spawns_app, spawns_when_print.
      by destruct (result _); rewrite app_nil_r.
    + by rewrite spawns_get_best_version_from_file, app_nil_r.
  - exists n1. split; [lia | by rewrite app_nil_r].
Qed.

(** C9, as the specification states it, fails: where the working directory
    has no [.git] directory, an invocation of method 1 starts no process. *)
Lemma one_process_counterexample :
  ¬ (∀ w tp v, length (spawns (trace (version_from_vcs tp v w))) = 1%nat).
Proof.
  intros H. specialize (H (archive_world "(HEAD, v1.0)") "v" false).
  vm_compute in H. discriminate.
Qed.

(** C9, amended.  An invocation of method 1 starts one process, [git
    describe] with its standard output piped, when the working directory has
    a [.git] directory, and none otherwise.  Reading the variable, the plain
    version file and the parent directory start none; method 2 starts one
    only through the method 1 it delegates to, and a resolution starts at
    most two.  Every method, and the resolution as a whole, opens files for
    reading only and writes nothing itself.  What the started [git describe]
    does inside its repository is not among these events. *)
Theorem resolver_effects vf tp pp d v w :
  spawns (trace (version_from_vcs tp v w)) =
    (if bool_decide (".git" ∈ w_dirs w) then [ESpawn describe_args true] else [])
  ∧ (∀ src, spawns (trace (get_expanded_variable src w)) = [])
  ∧ (∀ s, spawns (trace (version_from_expanded_variable s tp w)) =
          if PyStr.contains "$Format" (PyStr.strip s)
          then spawns (trace (version_from_vcs tp false w))
          else [])
  ∧ spawns (trace (version_from_file vf w)) = []
  ∧ spawns (trace (version_from_parentdir tp pp v w)) = []
  ∧ (∃ n, (n ≤ 2)%nat ∧
          spawns (trace (get_best_version vf tp pp d v w)) =
          replicate n (ESpawn describe_args true))
  ∧ Forall read_only (trace (version_from_vcs tp v w))
  ∧ (∀ src, Forall read_only (trace (get_expanded_variable src w)))
  ∧ (∀ s, Forall read_only (trace (version_from_expanded_variable s tp w)))
  ∧ Forall read_only (trace (version_from_file vf w))
  ∧ Forall read_only (trace (version_from_parentdir tp pp v w))
  ∧ Forall read_only (trace (get_best_version vf tp pp d v w)).
Proof.
  split; [apply spawns_version_from_vcs|].
  split; [intros src; apply spawns_get_expanded_variable|].
  split; [intros s; apply spawns_version_from_expanded_variable|].
  split; [apply spawns_version_from_file|].
  split; [apply spawns_version_from_parentdir|].
  split; [apply spawns_get_best_version|].
  split; [by apply (only_version_from_vcs read_only)|].
  split; [intros src; by apply (only_get_expanded_variable read_only)|].
  split; [intros s; by apply (only_version_from_expanded_variable read_only)|].
  split; [by apply (only_version_from_file read_only)|].
  split; [by apply (only_version_from_parentdir read_only)|].
  by apply (only_get_best_version read_only).
Qed.

(** ** The callers of the resolver *)

(** [get_version] checks the three module-level settings and hands the first
    of them to the resolver as [versionfile], so that methods 2 and 3 read
    the same file. *)
Lemma get_version_result v w :
  result (get_version v w) =
  match g_versionfile_source w, g_tag_prefix w, g_parentdir_prefix w with
  | Some src, Some tp, Some pp => result (get_best_version src tp pp None v w)
  | None, _, _ => Raise (AssertionError "please set versioneer.versionfile_source")
  | Some _, None, _ => Raise (AssertionError "please set versioneer.tag_prefix")
  | Some _, Some _, None =>
      Raise (AssertionError "please set versioneer.parentdir_prefix")
  end.
Proof.
  unfold get_version. rewrite result_bind, result_get_world, final_get_world.
  by destruct (g_versionfile_source w), (g_tag_prefix w), (g_parentdir_prefix w).
Qed.

(** Writing the version file is not read-only: the file changes, and the
    resolver then finds the version in it. *)
Lemma write_to_version_file_writes filename ver w :
  writable w filename →
  w_files (final (write_to_version_file filename ver w)) !! filename
  = Some (SHORT_VERSION_PY ver)
  ∧ ¬ Forall read_only (trace (write_to_version_file filename ver w)).
Proof.
  intros Hdir. unfold write_to_version_file, open_write. run.
  rewrite Hdir. simpl. split.
  - apply lookup_insert_eq.
  - intros H. inversion H as [|? ? Hw]. discriminate Hw.
Qed.

Lemma version_file_round_trip :
  result (version_from_file "src/_version.py"
            (final (write_to_version_file "src/_version.py" "1.2.0"
                      (unpacked_world EmptyString))))
  = Ret (Some "1.2.0").
Proof. vm_compute. done. Qed.

(** * The files the module writes and reads back *)

(** ** Lines *)

Lemma readlines_line line rest :
  free_of newline line →
  PyStr.readlines (line +:+ nl +:+ rest) = (line +:+ nl) :: PyStr.readlines rest.
Proof.
  induction line as [|c line IH]; intros Hfree.
  - done.
  - apply free_of_cons in Hfree as [Hc Hfree].
    rewrite !app_cons. cbn [PyStr.readlines].
    assert (Ascii.eqb c "010"%char = false) as ->
      by (apply Ascii.eqb_neq; unfold newline in Hc; congruence).
    by rewrite (IH Hfree).
Qed.

Lemma readlines_unlines ls :
  Forall (free_of newline) ls →
  PyStr.readlines (unlines ls) = (λ l, l +:+ nl) <$> ls.
Proof.
  induction 1 as [|l ls Hl _ IH]; [done|].
  cbn [unlines foldr fmap list_fmap]. rewrite readlines_line by done.
  f_equal. exact IH.
Qed.

(** ** The plain version file, written and read back *)

Lemma greedy_until_complete q grp run rest :
  free_of q run →
  Re.greedy (Re.not_char q) true (Re.exec [Re.GroupClose; Re.Chr q] true) grp
    (run +:+ String q rest)
  = Some (grp +:+ run).
Proof.
  revert grp. induction run as [|c run IH]; intros grp Hfree.
  - rewrite app_nil, app_empty_r. simpl. unfold Re.not_char.
    by rewrite !Ascii.eqb_refl.
  - apply free_of_cons in Hfree as [Hc Hfree]. rewrite app_cons.
    cbn [Re.greedy]. unfold Re.not_char at 1.
    assert (Ascii.eqb c q = false) as -> by (apply Ascii.eqb_neq; congruence).
    cbn [negb]. rewrite (IH _ Hfree). unfold Re.push.
    by rewrite app_assoc_str.
Qed.

Lemma version_line_match_complete ver rest :
  ver ≠ EmptyString → free_of "'"%char ver →
  Re.match_ version_line_re ("__version__ = '" +:+ ver +:+ "'" +:+ rest)
  = Some ver.
Proof.
  intros Hne Hfree. change ("'" +:+ rest) with (String "'"%char rest).
  unfold Re.match_, version_line_re.
  rewrite exec_lit, startswith_app, slice_from_app.
  destruct ver as [|c ver]; [done|].
  apply free_of_cons in Hfree as [Hc Hfree]. rewrite app_cons.
  cbn [Re.exec]. unfold Re.not_char at 1.
  assert (Ascii.eqb c "'"%char = false) as -> by (apply Ascii.eqb_neq; congruence).
  cbn [negb]. by rewrite (greedy_until_complete _ _ _ _ Hfree).
Qed.

Lemma first_version_line_app lines1 lines2 :
  first_version_line lines1 = None →
  first_version_line (lines1 ++ lines2) = first_version_line lines2.
Proof.
  induction lines1 as [|l lines1 IH]; [done|]. cbn [first_version_line app].
  destruct (Re.match_ version_line_re l); [done | exact IH].
Qed.

(** The lines of [SHORT_VERSION_PY % ver]. *)
Lemma SHORT_VERSION_PY_unlines ver :
  SHORT_VERSION_PY ver =
  unlines
    [ EmptyString;
      "# This file was generated by 'versioneer.py' from revision-control system";
      "# data, or from the parent directory name of an unpacked source archive.";
      "# Distribution tarballs contain a pre-generated copy of this file.";
      EmptyString;
      "__version__ = '" +:+ ver +:+ "'" ].
Proof.
  unfold SHORT_VERSION_PY, PyStr.concat, unlines. cbn [foldr String.concat].
  rewrite !app_empty_r, !app_nil. by rewrite !app_assoc_str.
Qed.

Lemma write_to_version_file_run filename ver w :
  writable w filename →
  write_to_version_file filename ver w =
  (Ret tt,
   mkWorld (w_dirs w) (<[filename := SHORT_VERSION_PY ver]> (w_files w))
     (w_popen w) (w_me w) (g_versionfile_source w) (g_tag_prefix w)
     (g_parentdir_prefix w),
   [EOpen filename "w"; EWrite filename (SHORT_VERSION_PY ver);
    EPrint (PyStr.concat ["set "; filename; " to '"; ver; "'"])]).
Proof.
  intros Hdir. unfold write_to_version_file, open_write, put_world. run.
  by rewrite Hdir.
Qed.

(** Only the last line of the written file can hold the version. *)
Lemma first_version_line_SHORT_VERSION_PY ver :
  free_of newline ver →
  first_version_line (PyStr.readlines (SHORT_VERSION_PY ver)) =
  Re.match_ version_line_re ("__version__ = '" +:+ ver +:+ "'" +:+ nl).
Proof.
  intros Hnl.
  rewrite SHORT_VERSION_PY_unlines, readlines_unlines.
  - cbn [fmap list_fmap].
    change (first_version_line
              ([EmptyString +:+ nl;
                "# This file was generated by 'versioneer.py' from revision-control system" +:+ nl;
                "# data, or from the parent directory name of an unpacked source archive." +:+ nl;
                "# Distribution tarballs contain a pre-generated copy of this file." +:+ nl;
                EmptyString +:+ nl] ++
               [("__version__ = '" +:+ ver +:+ "'") +:+ nl])
            = Re.match_ version_line_re ("__version__ = '" +:+ ver +:+ "'" +:+ nl)).
    rewrite first_version_line_app by done.
    cbn [first_version_line]. rewrite !app_assoc_str.
    by destruct (Re.match_ _ _).
  - repeat constructor.
    rewrite !free_of_app. done.
Qed.

Lemma version_from_file_after_write filename ver w :
  writable w filename →
  result ((write_to_version_file filename ver;; version_from_file filename) w) =
  Ret (first_version_line (PyStr.readlines (SHORT_VERSION_PY ver))).
Proof.
  intros Hdir. rewrite result_bind, write_to_version_file_run by done.
  cbn [result final fst snd]. rewrite version_from_file_result. cbn [w_files].
  by rewrite lookup_insert_eq.
Qed.

(** Where the file cannot be opened for writing, [write_to_version_file]
    raises the error of [open], before it writes or prints. *)
Lemma write_to_version_file_fails filename ver w msg :
  open_for_writing_error w filename = Some msg →
  write_to_version_file filename ver w =
  (Raise (EnvironmentError msg), w, [EOpen filename "w"]).
Proof.
  intros Herr. unfold write_to_version_file, open_write. run. by rewrite Herr.
Qed.

(** X1.  Where [filename] can be opened for writing (it names a file in a
    directory that is there), a version written by [write_to_version_file] is
    the version [version_from_file] then finds in the file, when it is not
    empty and has neither a single quote nor a newline.  Nothing escapes the
    text: an empty version is not found again, and a version with a single
    quote comes back cut off at the quote. *)
Theorem written_version_is_read_back filename ver w :
  writable w filename →
  let read_back :=
    result ((write_to_version_file filename ver;; version_from_file filename) w) in
  (ver ≠ EmptyString → free_of "'"%char ver → free_of newline ver →
   read_back = Ret (Some ver))
  ∧ (ver = EmptyString → read_back = Ret None)
  ∧ (∀ front back,
       ver = front +:+ "'" +:+ back →
       front ≠ EmptyString → free_of "'"%char front → free_of newline ver →
       read_back = Ret (Some front)).
Proof.
  intros Hdir read_back. subst read_back.
  rewrite version_from_file_after_write by done. split; [|split].
  - intros Hne Hquote Hnl.
    by rewrite first_version_line_SHORT_VERSION_PY, version_line_match_complete.
  - by intros ->.
  - intros front back -> Hne Hquote Hnl.
    rewrite first_version_line_SHORT_VERSION_PY by done.
    rewrite !app_assoc_str. by rewrite version_line_match_complete.
Qed.

Lemma written_version_is_read_back_witness :
  writable (unpacked_world EmptyString) "src/_version.py"
  ∧ result ((write_to_version_file "src/_version.py" "1.2.0";;
             version_from_file "src/_version.py") (unpacked_world EmptyString))
    = Ret (Some "1.2.0").
Proof.
  split; [reflexivity|].
  apply (proj1 (written_version_is_read_back "src/_version.py" "1.2.0"
                  (unpacked_world EmptyString) eq_refl)); done.
Defined.

(** ** A frozen version *)

Lemma rstrip_with_cons p c s :
  p c = false →
  PyStr.rstrip_with p (String c s) = String c (PyStr.rstrip_with p s).
Proof.
  intros Hc. cbn [PyStr.rstrip_with]. rewrite Hc.
  by destruct (PyStr.is_empty _).
Qed.

(** [strip] leaves a first character that is no whitespace where it is. *)
Lemma strip_head c s :
  PyStr.is_space c = false →
  PyStr.strip (String c s) = String c (PyStr.rstrip_with PyStr.is_space s).
Proof.
  intros Hc. unfold PyStr.strip, PyStr.strip_with. cbn [PyStr.lstrip_with].
  rewrite Hc. by apply rstrip_with_cons.
Qed.

Lemma first_verstr_line_app lines1 lines2 :
  first_verstr_line lines1 = None →
  first_verstr_line (lines1 ++ lines2) = first_verstr_line lines2.
Proof.
  induction lines1 as [|l lines1 IH]; [done|]. cbn [first_verstr_line app].
  destruct (PyStr.startswith _ _); [|exact IH].
  destruct (Re.search verstr_re l); [done | exact IH].
Qed.

(** The written file holds no variable for method 2. *)
Lemma first_verstr_line_SHORT_VERSION_PY ver :
  free_of newline ver →
  first_verstr_line (PyStr.readlines (SHORT_VERSION_PY ver)) = None.
Proof.
  intros Hnl.
  rewrite SHORT_VERSION_PY_unlines, readlines_unlines.
  - cbn [fmap list_fmap].
    change (first_verstr_line
              ([EmptyString +:+ nl;
                "# This file was generated by 'versioneer.py' from revision-control system" +:+ nl;
                "# data, or from the parent directory name of an unpacked source archive." +:+ nl;
                "# Distribution tarballs contain a pre-generated copy of this file." +:+ nl;
                EmptyString +:+ nl] ++
               [("__version__ = '" +:+ ver +:+ "'") +:+ nl]) = None).
    rewrite first_verstr_line_app by done.
    cbn [first_verstr_line]. rewrite !app_assoc_str.
    change ("__version__ = '" +:+ ver +:+ "'" +:+ nl)
      with (String "_"%char ("_version__ = '" +:+ ver +:+ "'" +:+ nl)).
    by rewrite strip_head.
  - repeat constructor.
    rewrite !free_of_app. done.
Qed.

(** X2.  Once [write_to_version_file] has written a version to the path
    [vf], a resolution with that same path as [versionfile] and as the
    module-level setting, in which method 1 is inapplicable, returns that
    version, whatever the directory name and the default are: the written
    file holds no expanded variable, so method 2 is inapplicable and method
    3 decides. *)
Theorem frozen_version_wins vf ver tp pp d v w :
  writable w vf →
  g_versionfile_source w = Some vf →
  ver ≠ EmptyString → free_of "'"%char ver → free_of newline ver →
  result (version_from_vcs tp v (final (write_to_version_file vf ver w))) = Ret None →
  result ((write_to_version_file vf ver;; get_best_version vf tp pp d v) w) = Ret ver.
Proof.
  intros Hdir Hsrc Hne Hquote Hnl Hvcs. revert Hvcs.
  rewrite result_bind, write_to_version_file_run by done.
  cbn [result final fst snd]. intros Hvcs.
  rewrite get_best_version_result. unfold candidates.
  rewrite Hvcs, expanded_variable_scan_result, version_from_file_result.
  cbn [g_versionfile_source w_files]. rewrite Hsrc.
  unfold expanded_variable. cbn [w_files]. rewrite lookup_insert_eq.
  cbn [mbind option_bind].
  rewrite first_verstr_line_SHORT_VERSION_PY by done.
  by rewrite first_version_line_SHORT_VERSION_PY, version_line_match_complete.
Qed.

Lemma frozen_version_wins_witness :
  result ((write_to_version_file "src/_version.py" "1.2.0";;
           get_best_version "src/_version.py" "v" "proj-" (Some "0.0.0") false)
            (unpacked_world "(HEAD, v9.9)"))
  = Ret "1.2.0".
Proof.
  apply (frozen_version_wins "src/_version.py" "1.2.0" "v" "proj-" (Some "0.0.0")
           false (unpacked_world "(HEAD, v9.9)")); done.
Defined.

(** ** The expanded variable, read back *)

Lemma readlines_unlines_app ls rest :
  Forall (free_of newline) ls →
  PyStr.readlines (unlines ls +:+ rest) =
  ((λ l, l +:+ nl) <$> ls) ++ PyStr.readlines rest.
Proof.
  induction 1 as [|l ls Hl _ IH]; [done|].
  cbn [unlines foldr fmap list_fmap app]. rewrite !app_assoc_str.
  rewrite readlines_line by done. f_equal. exact IH.
Qed.

Lemma first_verstr_line_skip lines rest :
  Forall (λ l, PyStr.startswith (PyStr.strip l) "verstr =" = false) lines →
  first_verstr_line (lines ++ rest) = first_verstr_line rest.
Proof.
  induction 1 as [|l lines Hl _ IH]; [done|].
  cbn [first_verstr_line app]. by rewrite Hl.
Qed.

Lemma rstrip_with_app_keep p a b :
  PyStr.rstrip_with p b ≠ EmptyString →
  PyStr.rstrip_with p (a +:+ b) = a +:+ PyStr.rstrip_with p b.
Proof.
  intros Hb. induction a as [|c a IH]; [done|].
  rewrite !app_cons. cbn [PyStr.rstrip_with]. rewrite IH.
  destruct (a +:+ PyStr.rstrip_with p b) as [|x y] eqn:E; [|done].
  by destruct a.
Qed.

(** After the closing quote the greedy [. *] finds no other quote on the
    line, and gives the characters back. *)
Lemma greedy_dot_gives_back grp post rest :
  free_of dquote post → free_of newline post →
  Re.greedy Re.dot true (Re.exec [Re.GroupClose; Re.Chr dquote] true) grp
    (post +:+ String newline rest)
  = None.
Proof.
  revert grp. induction post as [|c post IH]; intros grp Hq Hn.
  - done.
  - apply free_of_cons in Hq as [Hcq Hq]. apply free_of_cons in Hn as [Hcn Hn].
    rewrite app_cons. cbn [Re.greedy]. rewrite (IH _ Hq Hn).
    destruct (Re.dot c); cbn [Re.exec];
      by assert (Ascii.eqb dquote c = false) as -> by by apply Ascii.eqb_neq.
Qed.

Lemma greedy_dot_complete grp value post rest :
  free_of newline value → free_of dquote post → free_of newline post →
  Re.greedy Re.dot true (Re.exec [Re.GroupClose; Re.Chr dquote] true) grp
    (value +:+ String dquote (post +:+ String newline rest))
  = Some (grp +:+ value).
Proof.
  revert grp. induction value as [|c value IH]; intros grp Hv Hq Hn.
  - rewrite app_nil, app_empty_r. cbn [Re.greedy].
    rewrite (greedy_dot_gives_back _ _ _ Hq Hn). by destruct (Re.dot dquote).
  - apply free_of_cons in Hv as [Hc Hv]. rewrite app_cons. cbn [Re.greedy].
    assert (Re.dot c = true) as ->.
    { unfold Re.dot. apply negb_true_iff, Ascii.eqb_neq. unfold newline in Hc.
      congruence. }
    rewrite (IH _ Hv Hq Hn). unfold Re.push. by rewrite app_assoc_str.
Qed.

Lemma search_here r s g : Re.match_ r s = Some g → Re.search r s = Some g.
Proof. intros H. destruct s; cbn [Re.search]; by rewrite H. Qed.

Lemma search_skip r c s :
  Re.match_ r (String c s) = None → Re.search r (String c s) = Re.search r s.
Proof. intros H. cbn [Re.search]. by rewrite H. Qed.

Lemma verstr_no_match c s : c ≠ "="%char → Re.match_ verstr_re (String c s) = None.
Proof.
  intros Hc. unfold Re.match_, verstr_re. cbn [Re.exec].
  by assert (Ascii.eqb "="%char c = false) as -> by (apply Ascii.eqb_neq; congruence).
Qed.

Lemma verstr_match value post rest :
  free_of newline value → free_of dquote post → free_of newline post →
  Re.match_ verstr_re
    (String "="%char (String " "%char (String dquote
       (value +:+ String dquote (post +:+ String newline rest)))))
  = Some value.
Proof.
  intros Hv Hq Hn. unfold Re.match_, verstr_re. cbn [Re.exec].
  rewrite Ascii.eqb_refl. cbn [Re.greedy].
  replace (Re.space " "%char) with true by done.
  replace (Re.space dquote) with false by done.
  cbn [Re.exec]. rewrite Ascii.eqb_refl. cbn [Re.exec].
  by rewrite (greedy_dot_complete _ _ _ _ Hv Hq Hn).
Qed.

(** The line of the version file that holds the variable, with whatever
    follows the closing quote. *)
Lemma verstr_line_search value post :
  free_of newline value → free_of dquote post → free_of newline post →
  Re.search verstr_re
    ("verstr = " +:+ String dquote value +:+ String dquote post +:+ nl)
  = Some value.
Proof.
  intros Hv Hq Hn.
  replace ("verstr = " +:+ String dquote value +:+ String dquote post +:+ nl)
    with ("verstr " +:+
          String "="%char (String " "%char (String dquote
            (value +:+ String dquote (post +:+ String newline EmptyString)))))
    by done.
  rewrite !app_cons, app_nil.
  rewrite !search_skip by (by apply verstr_no_match).
  by apply search_here, verstr_match.
Qed.

Lemma verstr_line_starts value post :
  PyStr.startswith
    (PyStr.strip ("verstr = " +:+ String dquote value +:+ String dquote post +:+ nl))
    "verstr ="
  = true.
Proof.
  replace ("verstr = " +:+ String dquote value +:+ String dquote post +:+ nl)
    with (String "v"%char
            ("erstr " +:+
             String "="%char
               (" " +:+ String dquote value +:+ String dquote post +:+ nl)))
    by done.
  rewrite strip_head by done.
  rewrite rstrip_with_app_keep by (by rewrite rstrip_with_cons).
  rewrite rstrip_with_cons by done.
  apply (startswith_app "verstr =").
Qed.

Lemma first_verstr_line_found before value post after :
  Forall (free_of newline) before →
  Forall (λ l, PyStr.startswith (PyStr.strip (l +:+ nl)) "verstr =" = false) before →
  free_of newline value → free_of dquote post → free_of newline post →
  first_verstr_line
    (PyStr.readlines
       (unlines (before ++
                 ["verstr = " +:+ String dquote value +:+ String dquote post])
        +:+ after))
  = Some value.
Proof.
  intros Hlines Hbefore Hv Hq Hn.
  rewrite readlines_unlines_app.
  - rewrite fmap_app, <- !(assoc_L (++)).
    rewrite first_verstr_line_skip by (by apply Forall_fmap).
    cbn [fmap list_fmap app first_verstr_line]. rewrite !app_assoc_str.
    by rewrite verstr_line_starts, verstr_line_search.
  - apply Forall_app. split; [done|]. repeat constructor.
    rewrite !free_of_app, !free_of_cons. unfold newline, dquote.
    repeat split; done.
Qed.

(** X3.  [get_expanded_variable] finds the variable of a version file: from
    the first line that, trimmed, starts with [verstr =], it returns the text
    between the double quote after the equals sign and the last double quote
    of the line.  The lines before it are any lines that do not start so;
    the value may hold any character but a newline. *)
Theorem expanded_variable_is_read_back path w before value post after :
  w_files w !! path =
    Some (unlines (before ++
                   ["verstr = " +:+ String dquote value +:+ String dquote post])
          +:+ after) →
  Forall (free_of newline) before →
  Forall (λ l, PyStr.startswith (PyStr.strip (l +:+ nl)) "verstr =" = false) before →
  free_of newline value → free_of dquote post → free_of newline post →
  result (get_expanded_variable (Some path) w) = Ret (Some value).
Proof.
  intros Hfile Hlines Hbefore Hv Hq Hn.
  rewrite get_expanded_variable_result, Hfile. cbn [mbind option_bind].
  by rewrite first_verstr_line_found.
Qed.

(** The version file [update_files] leaves behind, after three lines of
    comment. *)
Lemma expanded_variable_is_read_back_witness :
  result (get_expanded_variable (Some "src/_version.py")
            (mkWorld ∅
               {["src/_version.py" :=
                   unlines (["# generated"; EmptyString; "# by git-archive"] ++
                            ["verstr = " +:+ String dquote "$Format:%d$" +:+
                             String dquote EmptyString])
                   +:+ "import subprocess"]}
               no_git "/home/user/work/versioneer.py" (Some "src/_version.py")
               (Some "v") (Some "proj-")))
  = Ret (Some "$Format:%d$").
Proof.
  apply (expanded_variable_is_read_back "src/_version.py" _
           ["# generated"; EmptyString; "# by git-archive"] "$Format:%d$"
           EmptyString "import subprocess").
  - vm_compute. reflexivity.
  - repeat constructor.
  - repeat constructor.
  - reflexivity.
  - reflexivity.
  - reflexivity.
Defined.

(** ** The name of the parent directory *)

Lemma split_last_slash_free s :
  free_of "/"%char s → posixpath.split_last_slash s = (EmptyString, s).
Proof.
  induction s as [|c s IH]; intros Hfree; [done|].
  apply free_of_cons in Hfree as [Hc Hfree].
  cbn [posixpath.split_last_slash]. rewrite (IH Hfree). cbn [PyStr.is_empty].
  by assert (Ascii.eqb c "/"%char = false) as -> by (apply Ascii.eqb_neq; congruence).
Qed.

(** The last slash of [a/b] is the one in front of a [b] without slash. *)
Lemma split_last_slash_app a b :
  free_of "/"%char b →
  posixpath.split_last_slash (a +:+ "/" +:+ b) = (a +:+ "/", b).
Proof.
  intros Hb. induction a as [|c a IH].
  - rewrite !app_nil. change ("/" +:+ b) with (String "/"%char b).
    cbn [posixpath.split_last_slash]. by rewrite (split_last_slash_free b Hb).
  - change (String c a +:+ "/" +:+ b) with (String c (a +:+ "/" +:+ b)).
    cbn [posixpath.split_last_slash]. rewrite IH.
    by destruct a.
Qed.

Lemma all_slashes_app a b :
  posixpath.all_slashes (a +:+ b) = posixpath.all_slashes a && posixpath.all_slashes b.
Proof.
  induction a as [|c a IH]; [done|]. rewrite app_cons.
  cbn [posixpath.all_slashes]. rewrite IH. by destruct (Ascii.eqb c "/"%char).
Qed.

Lemma all_slashes_free s :
  s ≠ EmptyString → free_of "/"%char s → posixpath.all_slashes s = false.
Proof.
  destruct s as [|c s]; [done|]. intros _ [Hc _]%free_of_cons.
  cbn [posixpath.all_slashes].
  by assert (Ascii.eqb c "/"%char = false) as -> by (apply Ascii.eqb_neq; congruence).
Qed.

Lemma rstrip_slash s :
  s ≠ EmptyString → free_of "/"%char s →
  PyStr.rstrip_chars "/" (s +:+ "/") = s.
Proof.
  intros Hne Hfree. unfold PyStr.rstrip_chars.
  induction s as [|c s IH]; [done|].
  apply free_of_cons in Hfree as [Hc Hfree]. rewrite app_cons.
  rewrite rstrip_with_cons.
  - destruct s as [|d s]; [done|]. by rewrite IH.
  - cbn [PyStr.mem_char].
    by assert (Ascii.eqb c "/"%char = false) as -> by (apply Ascii.eqb_neq; congruence).
Qed.

(** [os.path.basename(os.path.dirname(...))] of a file in a directory. *)
Lemma basename_dirname root parent file :
  parent ≠ EmptyString → free_of "/"%char parent → free_of "/"%char file →
  posixpath.basename (posixpath.dirname (root +:+ "/" +:+ parent +:+ "/" +:+ file))
  = parent.
Proof.
  intros Hne Hparent Hfile. unfold posixpath.dirname, posixpath.basename.
  replace (root +:+ "/" +:+ parent +:+ "/" +:+ file)
    with ((root +:+ "/" +:+ parent) +:+ "/" +:+ file)
    by (by rewrite !app_assoc_str).
  rewrite split_last_slash_app by done. cbn [fst].
  assert (PyStr.is_empty ((root +:+ "/" +:+ parent) +:+ "/") = false) as ->.
  { destruct root; [|done]. by destruct parent. }
  rewrite !all_slashes_app, (all_slashes_free parent) by done.
  rewrite !andb_false_r. cbn [negb andb].
  replace ((root +:+ "/" +:+ parent) +:+ "/")
    with ((root +:+ "/") +:+ (parent +:+ "/"))
    by (by rewrite !app_assoc_str).
  unfold PyStr.rstrip_chars.
  rewrite rstrip_with_app_keep.
  - fold (PyStr.rstrip_chars "/" (parent +:+ "/")). rewrite rstrip_slash by done.
    rewrite app_assoc_str, split_last_slash_app by done. done.
  - fold (PyStr.rstrip_chars "/" (parent +:+ "/")). by rewrite rstrip_slash.
Qed.

(** X4.  For a script [file] in a directory [parent] (neither name with a
    slash), [version_from_parentdir] returns what follows the prefix in the
    name of the directory, and [None] when the name does not start with the
    prefix; the directories above play no part. *)
Theorem version_from_parentdir_of_path tp pp v w root parent file :
  w_me w = root +:+ "/" +:+ parent +:+ "/" +:+ file →
  parent ≠ EmptyString → free_of "/"%char parent → free_of "/"%char file →
  (∀ ver, result (version_from_parentdir tp pp v w) = Ret (Some ver)
          ↔ parent = pp +:+ ver)
  ∧ (result (version_from_parentdir tp pp v w) = Ret None
     ↔ PyStr.startswith parent pp = false).
Proof.
  intros Hme Hne Hparent Hfile. rewrite version_from_parentdir_result, Hme.
  cbv zeta. rewrite basename_dirname by done.
  destruct (PyStr.startswith parent pp) eqn:Hpre; split.
  - intros ver. split.
    + intros [= <-]. by apply startswith_inv.
    + intros ->. by rewrite slice_from_app.
  - split; discriminate.
  - intros ver. split; [discriminate|].
    intros ->. by rewrite startswith_app in Hpre.
  - done.
Qed.

Lemma version_from_parentdir_of_path_witness :
  result (version_from_parentdir "v" "proj-" false (archive_world EmptyString))
  = Ret (Some "1.0").
Proof.
  apply (proj1 (version_from_parentdir_of_path "v" "proj-" false
                  (archive_world EmptyString) "/home/user" "proj-1.0"
                  "versioneer.py" eq_refl ltac:(discriminate) eq_refl eq_refl)
           "1.0").
  reflexivity.
Defined.

(** ** [get_version] *)

Lemma get_best_version_raises vf tp pp d v w e :
  result (get_best_version vf tp pp d v w) = Raise e →
  (∃ msg, e = NoVersionError msg) ∨ (e = TypeError ∧ g_versionfile_source w = None).
Proof.
  rewrite get_best_version_result. intros Hraise.
  apply first_applicable_raise in Hraise as [?|Hin]; [by left | right].
  revert Hin. unfold candidates.
  rewrite version_from_vcs_result, expanded_variable_scan_result,
    version_from_file_result, version_from_parentdir_result.
  rewrite !elem_of_cons, elem_of_nil.
  intros [?|[Hscan|[?|[?|[?|[]]]]]]; try discriminate.
  destruct (g_versionfile_source w) as [path|]; [|by inversion Hscan].
  destruct (expanded_variable w path) as [s|]; [|discriminate].
  by destruct (PyStr.is_empty s).
Qed.

(** X5.  [get_version] raises [AssertionError] exactly when one of the
    three module-level settings is unset, and then before any access to the
    directory, a file or a process.  With the three set it is the resolver on
    them, methods 2 and 3 on the same file and no default: it returns a
    version or raises [NoVersionError], and never [TypeError] or
    [EnvironmentError]. *)
Theorem get_version_guards v w :
  let r := get_version v w in
  ((g_versionfile_source w = None ∨ g_tag_prefix w = None ∨
    g_parentdir_prefix w = None)
   ↔ ∃ msg, result r = Raise (AssertionError msg))
  ∧ ((∃ msg, result r = Raise (AssertionError msg)) → trace r = [] ∧ final r = w)
  ∧ (∀ src tp pp,
       g_versionfile_source w = Some src → g_tag_prefix w = Some tp →
       g_parentdir_prefix w = Some pp →
       result r = result (get_best_version src tp pp None v w) ∧
       ((∃ ver, result r = Ret ver) ∨ (∃ msg, result r = Raise (NoVersionError msg)))).
Proof.
  intros r. subst r. split; [|split].
  - rewrite get_version_result.
    destruct (g_versionfile_source w) as [src|] eqn:Hsrc,
             (g_tag_prefix w) as [tp|], (g_parentdir_prefix w) as [pp|];
      (split; [intros [|[|]]; by eauto | intros [msg Hmsg]; eauto]).
    apply get_best_version_raises in Hmsg as [[? ?]|[? ?]]; [done | congruence].
  - intros [msg Hmsg]. rewrite get_version_result in Hmsg.
    unfold get_version. run.
    destruct (g_versionfile_source w) as [src|] eqn:Hsrc,
             (g_tag_prefix w) as [tp|], (g_parentdir_prefix w) as [pp|];
      try done.
    apply get_best_version_raises in Hmsg as [[? ?]|[? ?]]; [done | congruence].
  - intros src tp pp Hsrc Htp Hpp. rewrite get_version_result, Hsrc, Htp, Hpp.
    split; [done|].
    destruct (result (get_best_version src tp pp None v w)) as [ver|e] eqn:Hres;
      [left; eauto | right].
    apply get_best_version_raises in Hres as [[msg ->]|[_ ?]]; [eauto | congruence].
Qed.

(** ** The output of a command *)

Lemma lstrip_with_head p s c r :
  PyStr.lstrip_with p s = String c r → p c = false.
Proof.
  induction s as [|d s IH]; [done|]. cbn [PyStr.lstrip_with].
  destruct (p d) eqn:Hd; [exact IH | by intros [= <- _]].
Qed.

Lemma rstrip_with_head p s c r :
  PyStr.rstrip_with p s = String c r → ∃ s', s = String c s'.
Proof.
  destruct s as [|d s]; [done|]. cbn [PyStr.rstrip_with].
  destruct (_ && _); [done|]. intros [= <- _]. eauto.
Qed.

Lemma rstrip_with_last p s front c :
  PyStr.rstrip_with p s = front +:+ String c EmptyString → p c = false.
Proof.
  revert front. induction s as [|d s IH]; intros front.
  - by destruct front.
  - cbn [PyStr.rstrip_with].
    destruct (PyStr.rstrip_with p s) as [|x r] eqn:Hr; cbn [PyStr.is_empty andb].
    + destruct (p d) eqn:Hd; [by destruct front|].
      destruct front as [|y front]; [by intros [= <-]|].
      rewrite app_cons. intros [= _ H]. by destruct front.
    + destruct front as [|y front]; [done|].
      rewrite app_cons. intros [= _ H]. by apply (IH front).
Qed.

(** X6.  What [run_command] returns is the output of a process that exited
    with status 0, without the whitespace at its two ends: it neither starts
    nor ends with a space, a tab or a newline. *)
Theorem run_command_output_is_trimmed args v w out :
  result (run_command args v w) = Ret (Some out) →
  (∃ raw, w_popen w args = Exits raw 0 ∧ out = PyStr.strip raw)
  ∧ (∀ c rest, out = String c rest → PyStr.is_space c = false)
  ∧ (∀ front c, out = front +:+ String c EmptyString → PyStr.is_space c = false).
Proof.
  rewrite run_command_result. unfold command_output.
  destruct (w_popen w args) as [msg|raw rc]; [done|].
  destruct (rc =? 0) eqn:Hrc; [|done]. apply Z.eqb_eq in Hrc as ->.
  intros [= <-]. split; [by exists raw|]. split.
  - intros c rest Hout. unfold PyStr.strip, PyStr.strip_with in Hout.
    destruct (rstrip_with_head _ _ _ _ Hout) as [s' Hs'].
    by apply lstrip_with_head in Hs'.
  - intros front c Hout. by apply rstrip_with_last in Hout.
Qed.

Lemma run_command_output_is_trimmed_witness :
  (∃ raw, w_popen checkout_world describe_args = Exits raw 0 ∧
          "v1.2.0-dirty" = PyStr.strip raw)
  ∧ (∀ c rest, "v1.2.0-dirty" = String c rest → PyStr.is_space c = false)
  ∧ (∀ front c, "v1.2.0-dirty" = front +:+ String c EmptyString →
                PyStr.is_space c = false).
Proof.
  apply (run_command_output_is_trimmed describe_args false checkout_world).
  vm_compute. reflexivity.
Defined.

(** ** The entry in [.gitattributes] *)

Lemma bind_run {A B} (m : M A) (k : A → M B) w a w' t :
  m w = (Ret a, w', t) →
  bind m k w = (result (k a w'), final (k a w'), t ++ trace (k a w')).
Proof.
  intros Hm. unfold bind. rewrite Hm. by destruct (k a w') as [[r w''] t'].
Qed.

Lemma run_command_silent args w :
  run_command args false w = (Ret (command_output w args), w, [ESpawn args true]).
Proof.
  unfold run_command, command_output. run.
  destruct (w_popen w args) as [msg|raw rc]; [done|]. simpl.
  by destruct (rc =? 0).
Qed.

(** Reading [.gitattributes] and looking for the entry. *)
Lemma read_gitattributes vs w :
  try_except
    (do content <- open_read ".gitattributes";
     ret (export_subst_present vs (PyStr.readlines content) false))
    (λ _, ret false) w
  = (Ret (entry_present w vs), w, [EOpen ".gitattributes" "r"]).
Proof.
  unfold entry_present. run. by destruct (w_files w !! ".gitattributes").
Qed.

(** [.gitattributes] lies in the working directory: it can be opened for
    appending unless it is a directory. *)
Lemma gitattributes_writable w :
  ".gitattributes" ∉ w_dirs w → writable w ".gitattributes".
Proof.
  intros Hdir. unfold writable, open_for_writing_error.
  rewrite (bool_decide_eq_false_2 (".gitattributes" ∈ w_dirs w)) by done.
  reflexivity.
Qed.

Lemma do_vcs_install_run vs ipy w :
  ".gitattributes" ∉ w_dirs w →
  do_vcs_install vs ipy w =
  (Ret tt,
   (if entry_present w vs then w
    else with_files w
           (<[".gitattributes" := gitattributes w +:+ export_subst_entry vs +:+ nl]>
              (w_files w))),
   [ESpawn ["git"; "add"; "versioneer.py"] true;
    ESpawn ["git"; "add"; vs] true;
    ESpawn ["git"; "add"; ipy] true;
    EOpen ".gitattributes" "r"] ++
   (if entry_present w vs then []
    else [EOpen ".gitattributes" "a+";
          EWrite ".gitattributes" (export_subst_entry vs +:+ nl);
          ESpawn ["git"; "add"; ".gitattributes"] true])).
Proof.
  intros Hdir. unfold do_vcs_install.
  rewrite (bind_run _ _ _ _ _ _ (run_command_silent _ w)).
  rewrite (bind_run _ _ _ _ _ _ (run_command_silent _ w)).
  rewrite (bind_run _ _ _ _ _ _ (run_command_silent _ w)).
  rewrite (bind_run _ _ _ _ _ _ (read_gitattributes vs w)).
  destruct (entry_present w vs); [done|]. cbn [negb].
  assert (open_append ".gitattributes" "a+"
            (PyStr.concat [vs; " export-subst"; nl]) w
          = (Ret tt,
             with_files w
               (<[".gitattributes" := gitattributes w +:+ export_subst_entry vs +:+ nl]>
                  (w_files w)),
             [EOpen ".gitattributes" "a+";
              EWrite ".gitattributes" (export_subst_entry vs +:+ nl)])) as Happ.
  { unfold open_append, put_world. run.
    rewrite (gitattributes_writable w Hdir).
    unfold with_files, gitattributes, export_subst_entry, PyStr.concat.
    cbn [String.concat]. by rewrite !app_nil, !app_assoc_str. }
  rewrite (bind_run _ _ _ _ _ _ Happ).
  by rewrite (bind_run _ _ _ _ _ _ (run_command_silent _ _)).
Qed.

Lemma split_whitespace_go_app cur a c b :
  PyStr.is_space c = true →
  split_whitespace_go cur (a +:+ String c b) =
  split_whitespace_go cur a ++ split_whitespace_go EmptyString b.
Proof.
  intros Hc. revert cur. induction a as [|d a IH]; intros cur.
  - rewrite app_nil. cbn [split_whitespace_go]. by rewrite Hc.
  - rewrite app_cons. cbn [split_whitespace_go].
    destruct (PyStr.is_space d); [|apply IH].
    by rewrite IH, (assoc_L (++)).
Qed.

Lemma split_whitespace_go_nonempty cur s :
  cur ≠ EmptyString → split_whitespace_go cur s ≠ [].
Proof.
  revert cur. induction s as [|c s IH]; intros cur Hcur; cbn [split_whitespace_go].
  - by destruct cur.
  - destruct (PyStr.is_space c); [by destruct cur|].
    apply IH. by destruct cur.
Qed.

Lemma export_subst_present_app vs lines1 lines2 present :
  export_subst_present vs (lines1 ++ lines2) present =
  export_subst_present vs lines2 (export_subst_present vs lines1 present).
Proof.
  revert present. induction lines1 as [|l lines1 IH]; intros present; [done|].
  cbn [export_subst_present app]. apply IH.
Qed.

(** Trimmed, the line [do_vcs_install] writes is the entry. *)
Lemma strip_entry_line c vs :
  PyStr.is_space c = false →
  PyStr.strip (export_subst_entry (String c vs) +:+ nl) =
  export_subst_entry (String c vs).
Proof.
  intros Hc. unfold export_subst_entry. rewrite !app_cons.
  rewrite strip_head by done. f_equal. rewrite app_assoc_str.
  by rewrite rstrip_with_app_keep.
Qed.

(** [do_vcs_install] finds the line it writes. *)
Lemma export_subst_present_entry c vs present :
  PyStr.is_space c = false →
  export_subst_present (String c vs)
    [export_subst_entry (String c vs) +:+ nl] present
  = true.
Proof.
  intros Hc. cbn [export_subst_present]. rewrite strip_entry_line by done.
  unfold export_subst_entry at 1. rewrite startswith_app.
  rewrite bool_decide_eq_true_2; [done|].
  unfold export_subst_entry, split_whitespace.
  change (" export-subst") with (String " "%char "export-subst").
  rewrite split_whitespace_go_app by done.
  destruct (split_whitespace_go EmptyString (String c vs)) as [|x xs] eqn:Hx.
  - exfalso. revert Hx. cbn [split_whitespace_go]. rewrite Hc.
    by apply split_whitespace_go_nonempty.
  - cbn [app tail]. apply elem_of_app. right. vm_compute. by left.
Qed.

Lemma entry_present_after_write c vs w lines :
  PyStr.is_space c = false → free_of newline (String c vs) →
  gitattributes w = unlines lines → Forall (free_of newline) lines →
  entry_present
    (with_files w
       (<[".gitattributes" :=
            gitattributes w +:+ export_subst_entry (String c vs) +:+ nl]>
          (w_files w)))
    (String c vs)
  = true.
Proof.
  intros Hc Hvs Hold Hlines. unfold entry_present, with_files. cbn [w_files].
  rewrite lookup_insert_eq, Hold.
  replace (export_subst_entry (String c vs) +:+ nl)
    with (export_subst_entry (String c vs) +:+ nl +:+ EmptyString)
    by (by rewrite app_empty_r).
  rewrite readlines_unlines_app, readlines_line by
    (done || (unfold export_subst_entry; by apply free_of_app)).
  rewrite export_subst_present_app. by apply export_subst_present_entry.
Qed.

(** X7.  [do_vcs_install] itself only ever adds to [.gitattributes]: it
    opens no other file, and its one write, if any, is the entry for the
    version file, which it puts after what the file holds unless it finds
    the entry there.  It runs [git add] on the three files, and on
    [.gitattributes] when it has written to it (what those processes do to
    the repository is theirs); whether git can be run, or fails, changes
    neither what the function writes nor that it returns. *)
Theorem do_vcs_install_appends vs ipy w :
  ".gitattributes" ∉ w_dirs w →
  let r := do_vcs_install vs ipy w in
  result r = Ret tt
  ∧ (∀ path mode, EOpen path mode ∈ trace r → path = ".gitattributes")
  ∧ filter (λ e, is_write e) (trace r) =
    (if entry_present w vs then []
     else [EWrite ".gitattributes" (export_subst_entry vs +:+ nl)])
  ∧ gitattributes (final r) =
    gitattributes w +:+
    (if entry_present w vs then EmptyString else export_subst_entry vs +:+ nl)
  ∧ spawns (trace r) =
    [ESpawn ["git"; "add"; "versioneer.py"] true;
     ESpawn ["git"; "add"; vs] true;
     ESpawn ["git"; "add"; ipy] true] ++
    (if entry_present w vs then []
     else [ESpawn ["git"; "add"; ".gitattributes"] true]).
Proof.
  intros Hdir r. subst r. rewrite do_vcs_install_run by done.
  cbn [result final trace fst snd].
  destruct (entry_present w vs); (split; [done|]); split.
  - intros path mode Hin. cbn [app] in Hin.
    rewrite !elem_of_cons, elem_of_nil in Hin.
    repeat (destruct Hin as [Hin|Hin]; [by inversion Hin|]). done.
  - split; [done|]. split; [by rewrite app_empty_r | done].
  - intros path mode Hin. cbn [app] in Hin.
    rewrite !elem_of_cons, elem_of_nil in Hin.
    repeat (destruct Hin as [Hin|Hin]; [by inversion Hin|]). done.
  - split; [done|]. split; [|done].
    unfold gitattributes at 1, with_files. cbn [w_files].
    by rewrite lookup_insert_eq.
Qed.

Lemma do_vcs_install_appends_witness :
  let r := do_vcs_install "src/_version.py" "src/__init__.py" checkout_world in
  result r = Ret tt
  ∧ (∀ path mode, EOpen path mode ∈ trace r → path = ".gitattributes")
  ∧ filter (λ e, is_write e) (trace r) =
    [EWrite ".gitattributes" ("src/_version.py export-subst" +:+ nl)]
  ∧ gitattributes (final r) = "src/_version.py export-subst" +:+ nl
  ∧ spawns (trace r) =
    [ESpawn ["git"; "add"; "versioneer.py"] true;
     ESpawn ["git"; "add"; "src/_version.py"] true;
     ESpawn ["git"; "add"; "src/__init__.py"] true;
     ESpawn ["git"; "add"; ".gitattributes"] true].
Proof.
  apply (do_vcs_install_appends "src/_version.py" "src/__init__.py" checkout_world).
  vm_compute. discriminate.
Defined.

(** X8.  A second run of [do_vcs_install] finds the entry the first run
    left and writes nothing, provided [.gitattributes] was missing or a file
    of complete lines, and the name of the version file starts with a
    character that is no whitespace and has no newline in it. *)
Theorem do_vcs_install_twice c vs ipy w lines :
  ".gitattributes" ∉ w_dirs w →
  PyStr.is_space c = false → free_of newline (String c vs) →
  gitattributes w = unlines lines → Forall (free_of newline) lines →
  let once := do_vcs_install (String c vs) ipy w in
  let twice := do_vcs_install (String c vs) ipy (final once) in
  entry_present (final once) (String c vs) = true
  ∧ final twice = final once
  ∧ filter (λ e, is_write e) (trace twice) = [].
Proof.
  intros Hdir Hc Hvs Hold Hlines once twice. subst once twice.
  rewrite (do_vcs_install_run _ _ w) by done. cbn [final fst snd].
  destruct (entry_present w (String c vs)) eqn:Hpresent.
  - rewrite do_vcs_install_run, Hpresent by done. done.
  - pose proof (entry_present_after_write c vs w lines Hc Hvs Hold Hlines) as Hnow.
    rewrite do_vcs_install_run, Hnow by done. done.
Qed.

Lemma do_vcs_install_twice_witness :
  let once := do_vcs_install "src/_version.py" "src/__init__.py" checkout_world in
  let twice := do_vcs_install "src/_version.py" "src/__init__.py" (final once) in
  entry_present (final once) "src/_version.py" = true
  ∧ final twice = final once
  ∧ filter (λ e, is_write e) (trace twice) = [].
Proof.
  apply (do_vcs_install_twice "s"%char "rc/_version.py" "src/__init__.py"
           checkout_world []).
  - vm_compute. discriminate.
  - reflexivity.
  - reflexivity.
  - reflexivity.
  - constructor.
Defined.

(** ** [update_files] *)

Lemma do_vcs_install_final vs ipy w :
  ".gitattributes" ∉ w_dirs w →
  result (do_vcs_install vs ipy w) = Ret tt ∧
  final (do_vcs_install vs ipy w) = entry_added w vs.
Proof.
  intros Hdir. rewrite do_vcs_install_run by done. unfold entry_added.
  by destruct (entry_present w vs).
Qed.

Lemma open_write_run path text w :
  writable w path →
  open_write path text w =
  (Ret tt, with_files w (<[path := text]> (w_files w)),
   [EOpen path "w"; EWrite path text]).
Proof.
  intros Hdir. unfold open_write, put_world. run.
  by rewrite Hdir.
Qed.

Lemma open_append_run path mode text w :
  writable w path →
  open_append path mode text w =
  (Ret tt, appended w path text, [EOpen path mode; EWrite path text]).
Proof.
  intros Hdir. unfold open_append, put_world. run.
  by rewrite Hdir.
Qed.

Lemma read_or_empty path w :
  try_except (open_read path) (λ _, ret EmptyString) w =
  (Ret (content_of w path), w, [EOpen path "r"]).
Proof. unfold content_of. run. by destruct (w_files w !! path). Qed.

Lemma cmd_update_files_run_final vs tp w :
  writable w vs → writable w (init_py vs) → ".gitattributes" ∉ w_dirs w →
  result (cmd_update_files_run vs tp w) = Ret tt ∧
  final (cmd_update_files_run vs tp w) =
  entry_added (import_added (version_file_written w vs tp) (init_py vs)) vs.
Proof.
  intros Hvs Hipy Hgit. unfold cmd_update_files_run. cbv zeta.
  fold (init_py vs).
  rewrite (bind_run _ _ w tt w [EPrint (PyStr.concat [" creating "; vs])]) by done.
  rewrite (bind_run _ _ _ _ _ _ (open_write_run vs _ w Hvs)).
  fold (version_file_written w vs tp).
  rewrite (bind_run _ _ _ _ _ _ (read_or_empty (init_py vs) _)).
  set (wa := version_file_written w vs tp).
  assert ((if negb (PyStr.contains INIT_PY_SNIPPET (content_of wa (init_py vs)))
           then
             print (PyStr.concat [" appending to "; init_py vs]);;
             open_append (init_py vs) "a" INIT_PY_SNIPPET
           else print (PyStr.concat [" "; init_py vs; " unmodified"])) wa
          = (Ret tt, import_added wa (init_py vs),
             if PyStr.contains INIT_PY_SNIPPET (content_of wa (init_py vs))
             then [EPrint (PyStr.concat [" "; init_py vs; " unmodified"])]
             else [EPrint (PyStr.concat [" appending to "; init_py vs]);
                   EOpen (init_py vs) "a"; EWrite (init_py vs) INIT_PY_SNIPPET]))
    as Himport.
  { unfold import_added.
    destruct (PyStr.contains INIT_PY_SNIPPET (content_of wa (init_py vs)));
      cbn [negb]; [done|].
    rewrite (bind_run _ _ wa tt wa
               [EPrint (PyStr.concat [" appending to "; init_py vs])]) by done.
    by rewrite open_append_run. }
  rewrite (bind_run _ _ _ _ _ _ Himport). cbn [result final fst snd].
  apply do_vcs_install_final.
  unfold import_added. by destruct (PyStr.contains _ _).
Qed.

Lemma unlines_app lines1 lines2 :
  unlines (lines1 ++ lines2) = unlines lines1 +:+ unlines lines2.
Proof.
  induction lines1 as [|l lines1 IH]; [done|].
  cbn [unlines foldr app]. fold (unlines (lines1 ++ lines2)). fold (unlines lines1).
  by rewrite IH, !app_assoc_str.
Qed.

(** The file [path] begins with the text [text]. *)
Lemma begins_appended w path text q c extra :
  w_files w !! q = Some (c +:+ extra) →
  ∃ extra', w_files (appended w path text) !! q = Some (c +:+ extra').
Proof.
  intros Hq. unfold appended, with_files. cbn [w_files].
  destruct (decide (path = q)) as [->|Hne].
  - rewrite lookup_insert_eq. unfold content_of. rewrite Hq.
    exists (extra +:+ text).
    change (default EmptyString (Some (c +:+ extra))) with (c +:+ extra).
    by rewrite app_assoc_str.
  - rewrite lookup_insert_ne by done. eauto.
Qed.

(** The version file that [update_files] leaves holds the template, and
    after it what the later steps may have appended. *)
Lemma version_file_after_update vs tp w :
  ∃ extra,
    w_files (entry_added (import_added (version_file_written w vs tp) (init_py vs)) vs)
      !! vs
    = Some (LONG_VERSION_PY (str tp) +:+ extra).
Proof.
  assert (w_files (version_file_written w vs tp) !! vs
          = Some (LONG_VERSION_PY (str tp) +:+ EmptyString)) as Ha.
  { unfold version_file_written, with_files. cbn [w_files].
    by rewrite lookup_insert_eq, app_empty_r. }
  assert (∃ extra,
            w_files (import_added (version_file_written w vs tp) (init_py vs)) !! vs
            = Some (LONG_VERSION_PY (str tp) +:+ extra)) as [extra Hb].
  { unfold import_added. destruct (PyStr.contains _ _); [eauto|].
    by eapply begins_appended. }
  unfold entry_added. destruct (entry_present _ _); [eauto|].
  by eapply begins_appended.
Qed.

Lemma LONG_VERSION_PY_variable tag_prefix extra :
  first_verstr_line (PyStr.readlines (LONG_VERSION_PY tag_prefix +:+ extra))
  = Some "$Format:%d$".
Proof.
  unfold LONG_VERSION_PY.
  rewrite <- (take_drop 8 LONG_VERSION_PY_head).
  change (drop 8 LONG_VERSION_PY_head)
    with (["verstr = " +:+ String dquote "$Format:%d$" +:+ String dquote EmptyString]
          ++ drop 9 LONG_VERSION_PY_head).
  rewrite (assoc_L (++)), unlines_app, !app_assoc_str.
  apply first_verstr_line_found; try done; vm_compute; repeat constructor.
Qed.

(** X9.  Where the version file and the [__init__.py] next to it can be
    opened for writing and [.gitattributes] is no directory, [update_files]
    returns, and whatever the tag prefix, the version file it leaves holds
    the unexpanded marker as its variable, also after the later steps of the
    command: on that file method 2 of the resolver is a run of method 1. *)
Theorem update_files_leaves_marker vs tp w :
  writable w vs → writable w (init_py vs) → ".gitattributes" ∉ w_dirs w →
  let r := cmd_update_files_run vs tp w in
  result r = Ret tt
  ∧ result (get_expanded_variable (Some vs) (final r)) = Ret (Some "$Format:%d$")
  ∧ (g_versionfile_source w = Some vs →
     ∀ tag_prefix,
       result (expanded_variable_scan tag_prefix (final r)) =
       result (version_from_vcs tag_prefix false (final r))).
Proof.
  intros Hvs Hipy Hgit r. subst r.
  destruct (cmd_update_files_run_final vs tp w Hvs Hipy Hgit) as [-> ->].
  set (w1 := entry_added _ _).
  assert (expanded_variable w1 vs = Some "$Format:%d$") as Hvar.
  { unfold expanded_variable, w1.
    destruct (version_file_after_update vs tp w) as [extra ->].
    cbn [mbind option_bind]. by rewrite LONG_VERSION_PY_variable. }
  split; [done|]. split.
  - rewrite get_expanded_variable_result. fold (expanded_variable w1 vs).
    by rewrite Hvar.
  - intros Hsrc tag_prefix.
    assert (g_versionfile_source w1 = Some vs) as Hsrc1.
    { unfold w1, entry_added, import_added.
      by destruct (entry_present _ _), (PyStr.contains _ _). }
    rewrite expanded_variable_scan_result, Hsrc1, Hvar.
    by rewrite version_from_vcs_result.
Qed.

Lemma update_files_leaves_marker_witness :
  let r := cmd_update_files_run "src/pkg/_version.py" (Some "v") package_world in
  result r = Ret tt
  ∧ result (get_expanded_variable (Some "src/pkg/_version.py") (final r))
    = Ret (Some "$Format:%d$")
  ∧ (∀ tag_prefix,
       result (expanded_variable_scan tag_prefix (final r)) =
       result (version_from_vcs tag_prefix false (final r))).
Proof.
  destruct (update_files_leaves_marker "src/pkg/_version.py" (Some "v")
              package_world) as (Hret & Hvar & Hscan).
  - reflexivity.
  - reflexivity.
  - vm_compute. discriminate.
  - split; [exact Hret|]. split; [exact Hvar|]. exact (Hscan eq_refl).
Defined.











(** ** A [.gitattributes] whose last line is not ended *)

Lemma readlines_last last :
  last ≠ EmptyString → free_of newline last → PyStr.readlines last = [last].
Proof.
  induction last as [|c last IH]; intros Hne Hfree; [done|].
  apply free_of_cons in Hfree as [Hc Hfree]. cbn [PyStr.readlines].
  assert (Ascii.eqb c "010"%char = false) as ->
    by (apply Ascii.eqb_neq; unfold newline in Hc; congruence).
  destruct last as [|d last]; [done|]. by rewrite IH.
Qed.

Lemma export_subst_present_true vs lines : export_subst_present vs lines true = true.
Proof.
  induction lines as [|l lines IH]; [done|]. cbn [export_subst_present].
  destruct (PyStr.startswith _ _); [|done]. by destruct (bool_decide _).
Qed.

Lemma export_subst_present_false vs lines1 lines2 :
  export_subst_present vs (lines1 ++ lines2) false = false →
  export_subst_present vs lines1 false = false.
Proof.
  rewrite export_subst_present_app.
  destruct (export_subst_present vs lines1 false); [|done].
  by rewrite export_subst_present_true.
Qed.

(** X11.  [do_vcs_install] does not start a new line for its entry.  Where
    the last line of [.gitattributes] is not ended by a newline, the entry
    is joined to that line; and when the joined line does not itself start
    with the name of the version file, the next run does not find the entry
    and appends it again. *)
Theorem do_vcs_install_joins_last_line vs ipy w lines last :
  ".gitattributes" ∉ w_dirs w →
  w_files w !! ".gitattributes" = Some (unlines lines +:+ last) →
  Forall (free_of newline) lines → last ≠ EmptyString → free_of newline last →
  free_of newline vs →
  entry_present w vs = false →
  let once := do_vcs_install vs ipy w in
  PyStr.readlines (gitattributes (final once)) =
    ((λ l, l +:+ nl) <$> lines) ++ [last +:+ export_subst_entry vs +:+ nl]
  ∧ (PyStr.startswith (PyStr.strip (last +:+ export_subst_entry vs +:+ nl)) vs = false →
     entry_present (final once) vs = false ∧
     gitattributes (final (do_vcs_install vs ipy (final once))) =
     gitattributes w +:+ export_subst_entry vs +:+ nl +:+ export_subst_entry vs +:+ nl).
Proof.
  intros Hdir Hfile Hlines Hne Hlast Hvs Hpresent once. subst once.
  assert (gitattributes w = unlines lines +:+ last) as Hold
    by (unfold gitattributes; by rewrite Hfile).
  rewrite (do_vcs_install_run _ _ w), Hpresent by done. cbn [final fst snd].
  set (w1 := with_files _ _).
  assert (gitattributes w1 = gitattributes w +:+ export_subst_entry vs +:+ nl) as Hnew.
  { unfold gitattributes at 1, w1, with_files. cbn [w_files].
    by rewrite lookup_insert_eq. }
  assert (PyStr.readlines (gitattributes w1) =
          ((λ l, l +:+ nl) <$> lines) ++ [last +:+ export_subst_entry vs +:+ nl])
    as Hread.
  { rewrite Hnew, Hold, app_assoc_str, readlines_unlines_app by done. f_equal.
    replace (last +:+ export_subst_entry vs +:+ nl)
      with ((last +:+ export_subst_entry vs) +:+ nl +:+ EmptyString)
      by (by rewrite app_empty_r, !app_assoc_str).
    rewrite readlines_line; [done|].
    unfold export_subst_entry. rewrite !free_of_app. by repeat split. }
  split; [done|]. intros Hjoined.
  assert (entry_present w1 vs = false) as Hpresent1.
  { unfold entry_present.
    assert (w_files w1 !! ".gitattributes" = Some (gitattributes w1)) as ->.
    { unfold gitattributes, w1, with_files. cbn [w_files].
      by rewrite !lookup_insert_eq. }
    rewrite Hread, export_subst_present_app.
    assert (export_subst_present vs ((λ l, l +:+ nl) <$> lines) false = false) as ->.
    { unfold entry_present in Hpresent. rewrite Hfile in Hpresent.
      rewrite readlines_unlines_app in Hpresent by done.
      by apply export_subst_present_false in Hpresent. }
    cbn [export_subst_present]. by rewrite Hjoined. }
  split; [done|].
  rewrite (do_vcs_install_run _ _ w1), Hpresent1 by done. cbn [final fst snd].
  unfold gitattributes at 1, with_files. cbn [w_files].
  rewrite lookup_insert_eq. cbn [default from_option id].
  by rewrite Hnew, !app_assoc_str.
Qed.

Lemma do_vcs_install_joins_last_line_witness :
  let w := mkWorld ∅ {[".gitattributes" := unlines ["*.c text"] +:+ "*.py text"]}
             no_git "/home/user/work/versioneer.py" None None None in
  let once := do_vcs_install "src/_version.py" "src/__init__.py" w in
  PyStr.readlines (gitattributes (final once)) =
    ((λ l, l +:+ nl) <$> ["*.c text"]) ++
    ["*.py text" +:+ export_subst_entry "src/_version.py" +:+ nl]
  ∧ (PyStr.startswith
       (PyStr.strip ("*.py text" +:+ export_subst_entry "src/_version.py" +:+ nl))
       "src/_version.py" = false →
     entry_present (final once) "src/_version.py" = false ∧
     gitattributes
       (final (do_vcs_install "src/_version.py" "src/__init__.py" (final once))) =
     gitattributes w +:+ export_subst_entry "src/_version.py" +:+ nl +:+
     export_subst_entry "src/_version.py" +:+ nl).
Proof.
  apply (do_vcs_install_joins_last_line "src/_version.py" "src/__init__.py"
           (mkWorld ∅ {[".gitattributes" := unlines ["*.c text"] +:+ "*.py text"]}
              no_git "/home/user/work/versioneer.py" None None None)
           ["*.c text"] "*.py text").
  - apply not_elem_of_empty.
  - vm_compute. reflexivity.
  - repeat constructor.
  - discriminate.
  - reflexivity.
  - reflexivity.
  - vm_compute. reflexivity.
Defined.

(** ** An archive made by [git archive] *)

(** X12.  Where the variable of the version file was expanded to a list of
    refs (it is not empty and holds no marker) and method 1 is inapplicable,
    the resolver returns what the refs give, the literal [unknown] when none
    of them qualifies: the plain version file, the directory name and the
    default are not consulted. *)
Theorem archive_is_resolved_from_refs vf tp pp d v w path before value post after :
  g_versionfile_source w = Some path →
  w_files w !! path =
    Some (unlines (before ++
                   ["verstr = " +:+ String dquote value +:+ String dquote post])
          +:+ after) →
  Forall (free_of newline) before →
  Forall (λ l, PyStr.startswith (PyStr.strip (l +:+ nl)) "verstr =" = false) before →
  free_of newline value → free_of dquote post → free_of newline post →
  value ≠ EmptyString → PyStr.contains "$Format" (PyStr.strip value) = false →
  result (version_from_vcs tp v w) = Ret None →
  result (get_best_version vf tp pp d v w) =
  Ret (select_ref (parse_refs (PyStr.strip value)) tp).
Proof.
  intros Hsrc Hfile Hlines Hbefore Hv Hq Hn Hne Hmarker Hvcs.
  rewrite get_best_version_result. unfold candidates.
  rewrite Hvcs, expanded_variable_scan_result, Hsrc.
  unfold expanded_variable. rewrite Hfile. cbn [mbind option_bind].
  rewrite first_verstr_line_found by done.
  destruct value as [|c value]; [done|]. cbn [PyStr.is_empty].
  unfold expanded_version. by rewrite Hmarker.
Qed.

Lemma archive_is_resolved_from_refs_witness :
  result (get_best_version "src/_version.py" "v" "proj-" (Some "0.0.0") false
            (archive_world "(HEAD, tag-a, tag-b)"))
  = Ret (select_ref (parse_refs (PyStr.strip "(HEAD, tag-a, tag-b)")) "v").
Proof.
  apply (archive_is_resolved_from_refs "src/_version.py" "v" "proj-" (Some "0.0.0")
           false (archive_world "(HEAD, tag-a, tag-b)") "src/_version.py" []
           "(HEAD, tag-a, tag-b)" EmptyString EmptyString).
  - reflexivity.
  - vm_compute. reflexivity.
  - constructor.
  - constructor.
  - reflexivity.
  - reflexivity.
  - reflexivity.
  - discriminate.
  - reflexivity.
  - vm_compute. reflexivity.
Defined.
